(** * CDRChat: the BigQuery agent web server (server.py, agent.py)

    A shallow embedding of the request handlers of [server.py] and of the
    agent factory of [agent.py], with the properties of the session registry,
    of the streaming event translator and of the discovery gateway.

    Conventions of the embedding.
    - A Python [str] is a [string]; every [ascii] stands for one code point
      below 256, so comparison of strings is the code-point order Python uses.
    - [None] is [option]'s [None]; an attribute that [hasattr] may miss is an
      [attr].
    - A handler that raises [HTTPException] returns [Raise_HTTPException].
    - The process-wide objects ([active_runners], [session_service]) are the
      fields of an explicit [State] threaded through the handlers. *)

From Stdlib Require Import ZArith Ascii String List Sorted Permutation Lia.
From stdpp Require Import base option list strings gmap sets relations.

Local Open Scope Z_scope.

(** ** Python strings *)

Module Py.

(** Truth value of a [str]: the empty string is falsy. *)
Definition truthy_str (s : string) : bool :=
  match s with
  | EmptyString => false
  | String _ _ => true
  end.

(** Truth value of a value that is [None] or a [str]. *)
Definition truthy (o : option string) : bool :=
  match o with
  | None => false
  | Some s => truthy_str s
  end.

(** [x or 0] for [x] being [None] or an [int]. *)
Definition or_zero (x : option Z) : Z :=
  match x with
  | None => 0
  | Some n => n
  end.

(** [s.startswith(p)] *)
Fixpoint startswith (p s : string) : bool :=
  match p, s with
  | EmptyString, _ => true
  | String a p', String b s' => if Ascii.eqb a b then startswith p' s' else false
  | String _ _, EmptyString => false
  end.

(** [s[n:]] *)
Fixpoint drop (n : nat) (s : string) : string :=
  match n, s with
  | O, _ => s
  | S n', String _ s' => drop n' s'
  | S _, EmptyString => EmptyString
  end.

(** [c.isspace()] on the code points below 256: TAB, LF, VT, FF, CR,
    FS, GS, RS, US, SPACE, NEL (0x85) and NBSP (0xA0). *)
Definition isspace (c : ascii) : bool :=
  let n := N_of_ascii c in
  ((9 <=? n) && (n <=? 13) || (28 <=? n) && (n <=? 32)
   || (n =? 133) || (n =? 160))%N.

Fixpoint lstrip (s : string) : string :=
  match s with
  | EmptyString => EmptyString
  | String c s' => if isspace c then lstrip s' else s
  end.

Fixpoint rstrip (s : string) : string :=
  match s with
  | EmptyString => EmptyString
  | String c s' =>
      match rstrip s' with
      | EmptyString => if isspace c then EmptyString else String c EmptyString
      | r => String c r
      end
  end.

(** [s.strip()] *)
Definition strip (s : string) : string := rstrip (lstrip s).

(** [c.lower()] on the code points below 256: A-Z and the upper-case
    letters of Latin-1 (0xC0-0xDE, without the multiplication sign 0xD7)
    move up by 32. *)
Definition lower_char (c : ascii) : ascii :=
  let n := N_of_ascii c in
  if ((65 <=? n) && (n <=? 90)
      || (192 <=? n) && (n <=? 222) && negb (n =? 215))%N
  then ascii_of_N (n + 32)
  else c.

(** [s.lower()] *)
Fixpoint lower (s : string) : string :=
  match s with
  | EmptyString => EmptyString
  | String c s' => String (lower_char c) (lower s')
  end.

(** [l.sort(key=key)]: Python's sort is stable and compares the keys with
    [<]; the stable insertion sort below yields the same list. *)
Section Sort.
Context {A : Type} (key : A -> string).

Fixpoint insert_by (x : A) (l : list A) : list A :=
  match l with
  | [] => [x]
  | y :: l' =>
      if String.leb (key x) (key y) then x :: y :: l'
      else y :: insert_by x l'
  end.

Definition sort_by (l : list A) : list A := foldr insert_by [] l.
End Sort.

(** [l.sort()] on a list of [str]. *)
Definition sort (l : list string) : list string := sort_by (fun s => s) l.

End Py.

(** ** HTTP plumbing shared by the handlers *)

(** What a handler gives back: a value, or the [HTTPException] it raised. *)
Inductive result (A : Type) : Type :=
| Return (a : A)
| Raise_HTTPException (status_code : Z) (detail : string).
Arguments Return {A} a.
Arguments Raise_HTTPException {A} status_code detail.

(** Sequencing of handler steps: a raised [HTTPException] ends the handler. *)
#[global] Instance result_ret : MRet result := fun A a => Return a.
#[global] Instance result_bind : MBind result := fun A B k r =>
  match r with
  | Return a => k a
  | Raise_HTTPException c d => Raise_HTTPException c d
  end.

(** The part of an inbound request the handlers read: the [Authorization]
    header (if any) and the decoded JSON body of the POST endpoints. *)
Record Body := {
  message : option string;
  project_id : option string;
  dataset : option string;
  session_id : option string
}.

Record Request := {
  Authorization : option string;
  json : Body
}.

(** [_extract_token] *)
Definition _extract_token (request : Request) : result string :=
  let auth := default EmptyString (Authorization request) in
  if negb (Py.startswith "Bearer " auth)
  then Raise_HTTPException 401 "Missing or invalid Authorization header"
  else Return (Py.drop 7 auth).

(** ** Discovery gateway: [list_projects], [list_datasets] *)

(** The reply of the upstream provider, with its body already decoded by
    [resp.json()] into [D]. *)
Record UpstreamResponse (D : Type) := {
  status_code : Z;
  text : string;
  resp_json : D
}.
Arguments status_code {D} _.
Arguments text {D} _.
Arguments resp_json {D} _.

(** One element of the provider's ["projects"] array. *)
Record ProjectJson := {
  projectId : string;
  name : option string;          (* key may be missing *)
  projectNumber : option string  (* key may be missing *)
}.

(** One element of the provider's ["datasets"] array:
    [d["datasetReference"]["datasetId"]]. *)
Record DatasetJson := { datasetId : string }.

(** The dict built for every project. *)
Record Project := {
  p_id : string;
  p_name : string;
  p_number : option string
}.

Definition project_of (p : ProjectJson) : Project :=
  {| p_id := projectId p;
     p_name := default (projectId p) (name p);
     p_number := projectNumber p |}.

Definition scope_detail : string :=
  "Token lacks project listing permissions. Ensure cloudresourcemanager.readonly scope.".

(** [list_projects]; [client_get token] is the provider's reply to the GET
    issued with the caller's token, its ["projects"] key possibly missing. *)
Definition list_projects
    (client_get : string -> UpstreamResponse (option (list ProjectJson)))
    (request : Request) : result (list Project) :=
  token ← _extract_token request;
  let resp := client_get token in
  if status_code resp =? 403 then Raise_HTTPException 403 scope_detail
  else if negb (status_code resp =? 200)
  then Raise_HTTPException (status_code resp) (text resp)
  else
    let data := resp_json resp in
    let projects := map project_of (default [] data) in
    Return (Py.sort_by (fun p => Py.lower (p_name p)) projects).

(** [list_datasets]; [client_get token project_id] is the provider's reply. *)
Definition list_datasets
    (client_get : string -> string -> UpstreamResponse (option (list DatasetJson)))
    (request : Request) (project_id : string) : result (list string) :=
  token ← _extract_token request;
  let resp := client_get token project_id in
  if negb (status_code resp =? 200)
  then Raise_HTTPException (status_code resp) (text resp)
  else
    let data := resp_json resp in
    let datasets := map datasetId (default [] data) in
    Return (Py.sort datasets).

(** ** Agent factory: [create_bigquery_agent] (agent.py) *)

Record Credentials := { token : string }.

Record BigQueryToolset := {
  credentials : Credentials;        (* BigQueryCredentialsConfig *)
  compute_project_id : string       (* BigQueryToolConfig *)
}.

Record LlmAgent := {
  model : string;
  agent_name : string;
  description : string;
  instruction : string;
  tools : list BigQueryToolset
}.

Definition dquote : string := String (ascii_of_nat 34) EmptyString.

Definition dataset_clause (project_id : string) (default_dataset : option string) : string :=
  match default_dataset with
  | Some d =>
      if Py.truthy_str d then
        "
- Default Dataset: " +:+ d +:+ "
When writing SQL queries, prefer the fully qualified table name: `"
        +:+ project_id +:+ "." +:+ d +:+ ".table_name`
"
      else ""
  | None => ""
  end.

Definition create_bigquery_agent
    (access_token project_id : string) (default_dataset : option string)
    (model : string) : LlmAgent :=
  let credentials := {| token := access_token |} in
  let bigquery_toolset :=
    {| credentials := credentials; compute_project_id := project_id |} in
  {| model := model;
     agent_name := "BigQueryAgent";
     description := "An AI agent that can query and analyze data in Google BigQuery.";
     instruction :=
       "You are a helpful data analyst agent with access to Google BigQuery.

IMPORTANT CONFIGURATION:
- Project ID: " +:+ project_id +:+ "
" +:+ dataset_clause project_id default_dataset +:+ "

Your capabilities include:
- Listing available datasets and tables
- Getting schema information for tables
- Executing SQL queries to answer questions about the data

When a user asks a question:
1. Start by discovering available datasets if you haven't already
2. Get table schemas to understand the structure before writing queries
3. Write and execute SQL queries to answer the user's questions
4. Present results in a clear, readable format

Always use the project " +:+ dquote +:+ project_id +:+ dquote +:+
" for all queries unless the user explicitly specifies otherwise.
Always explain what you're doing and provide context for your answers.
If a query fails, explain the error and try to fix it.
Be concise but thorough in your responses.";
     tools := [bigquery_toolset] |}.

(** The default of the [model] argument. *)
Definition default_model : string := "gemini-3-pro-preview".

(** ** Session registry: [active_runners], [session_service] *)

(** A session of the runtime's session service. *)
Record Session := {
  id : string;
  s_app_name : string;
  s_user_id : string
}.

(** [Runner(agent=..., app_name=..., session_service=session_service)]; the
    session service is the process-wide one of [State]. *)
Record Runner := {
  agent : LlmAgent;
  r_app_name : string
}.

(** The dict stored in [active_runners] under a session id. *)
Record Entry := {
  runner : Runner;
  session : Session;
  e_project_id : option string
}.

(** The two process-wide objects. [session_service] is the key space of the
    [InMemorySessionService]: the sessions it holds, by session id. *)
Record State := {
  active_runners : gmap string Entry;
  session_service : gmap string Session
}.

Definition init : State :=
  {| active_runners := ∅; session_service := ∅ |}.

(** [session_service.create_session(app_name=..., user_id=...)]: the service
    stores a new session under the id it generated ([uuid]) and returns it. *)
Definition create_session (uuid app_name user_id : string)
    (service : gmap string Session) : gmap string Session * Session :=
  let s := {| id := uuid; s_app_name := app_name; s_user_id := user_id |} in
  (<[uuid := s]> service, s).

(** What the closure [event_stream] captures from [query]. *)
Record Stream := {
  st_session_id : string;
  st_runner : Runner;
  st_session : Session;
  st_content : string   (* Content(role="user", parts=[Part(text=user_message)]) *)
}.

(** What [query] returns. *)
Inductive Response : Type :=
| JSONResponse (error : string) (status_code : Z)
| StreamingResponse (event_stream : Stream).

(** [session_id and session_id in active_runners] *)
Definition registry_hit (session_id : option string)
    (active_runners : gmap string Entry) : option (string * Entry) :=
  match session_id with
  | Some sid =>
      if Py.truthy_str sid then
        match active_runners !! sid with
        | Some entry => Some (sid, entry)
        | None => None
        end
      else None
  | None => None
  end.

(** [query], up to the [StreamingResponse] it returns; [uuid] is the id the
    session service generates if a session is created. *)
Definition query (uuid : string) (request : Request) (st : State)
    : State * result Response :=
  match _extract_token request with
  | Raise_HTTPException c d => (st, Raise_HTTPException c d)
  | Return token =>
      let body := json request in
      let user_message := Py.strip (default "" (message body)) in
      let project_id := project_id body in
      let dataset := dataset body in
      let session_id := session_id body in
      if negb (Py.truthy_str user_message)
      then (st, Return (JSONResponse "Empty message" 400))
      else if negb (Py.truthy project_id)
      then (st, Return (JSONResponse "No project_id specified" 400))
      else
        match registry_hit session_id (active_runners st) with
        | Some (session_id, entry) =>
            let runner := runner entry in
            let session := session entry in
            (st, Return (StreamingResponse
                           {| st_session_id := session_id; st_runner := runner;
                              st_session := session; st_content := user_message |}))
        | None =>
            let agent :=
              create_bigquery_agent token (default "" project_id) dataset
                                    default_model in
            let runner := {| agent := agent; r_app_name := "bigquery_agent" |} in
            let '(service, session) :=
              create_session uuid "bigquery_agent" "web_user" (session_service st) in
            let session_id := id session in
            let entry :=
              {| runner := runner; session := session; e_project_id := project_id |} in
            ({| active_runners := <[session_id := entry]> (active_runners st);
                session_service := service |},
             Return (StreamingResponse
                       {| st_session_id := session_id; st_runner := runner;
                          st_session := session; st_content := user_message |}))
        end
  end.

(** [reset_session]: the handler answers [{"ok": True}] in every case. *)
Definition reset_session (body : Body) (st : State) : State * bool :=
  match session_id body with
  | Some sid =>
      if Py.truthy_str sid && bool_decide (is_Some (active_runners st !! sid))
      then ({| active_runners := delete sid (active_runners st);
               session_service := session_service st |}, true)
      else (st, true)
  | None => (st, true)
  end.

(** ** Streaming event translator: [event_stream] *)

(** *** Raw events of the runtime, as [event_stream] probes them *)

(** An attribute probed with [hasattr]: missing, or present with a value. *)
Inductive attr (A : Type) : Type :=
| NoAttr
| Attr (a : A).
Arguments NoAttr {A}.
Arguments Attr {A} a.

(** [hasattr(x, a) and x.a] for an attribute holding [None] or a [str]. *)
Definition attr_truthy_str (a : attr (option string)) : option string :=
  match a with
  | Attr (Some s) => if Py.truthy_str s then Some s else None
  | _ => None
  end.

(** [hasattr(x, a) and x.a] for an attribute holding [None] or an object. *)
Definition attr_truthy {A} (a : attr (option A)) : option A :=
  match a with
  | Attr (Some x) => Some x
  | _ => None
  end.

Record FunctionCall := {
  fc_name : attr (option string);
  fc_str : string                        (* str(fn) *)
}.

Record Part := {
  part_text : attr (option string);
  function_call : attr (option FunctionCall)
}.

(** [parts] is [None] or a list. *)
Record Content := { parts : option (list Part) }.

Record UsageMetadata := {
  prompt_token_count : attr (option Z);
  candidates_token_count : attr (option Z)
}.

Record Event := {
  usage_metadata : attr (option UsageMetadata);
  content : attr (option Content)
}.

(** The feed of [runner.run_async(...)] for one turn: the events it yields,
    then it is exhausted ([None]) or raises an [Exception] [e] with
    [str(e) = msg] ([Some msg]). *)
Record Feed := {
  events : list Event;
  raises : option string
}.

(** *** Outbound events

    The payload of one [data: {json}] frame. [float] is the type of the
    clock's readings. *)
Inductive OutboundEvent (float : Type) : Type :=
| session_ev (session_id : string)
| text_ev (content : string)
| tool_ev (name : option string)
| error_ev (content : string)
| done_ev (duration : float) (input_tokens output_tokens : Z).
Arguments session_ev {float} session_id.
Arguments text_ev {float} content.
Arguments tool_ev {float} name.
Arguments error_ev {float} content.
Arguments done_ev {float} duration input_tokens output_tokens.

(** Floating point is left to the interface: the difference of two clock
    readings and [round(x, ndigits)]. *)
Class Clock (float : Type) := {
  fsub : float -> float -> float;
  round : float -> Z -> float
}.

(** *** The generator

    The body of [event_stream] is a computation that yields outbound events,
    updates the local counters and may raise. *)

Record Locals := {
  input_tokens : Z;
  output_tokens : Z
}.

Inductive outcome (A : Type) : Type :=
| Normal (a : A)
| Raised (msg : string).   (* an [Exception] [e], by [str(e)] *)
Arguments Normal {A} a.
Arguments Raised {A} msg.

Section Generator.
Context {float : Type}.

Definition Gen (A : Type) : Type :=
  Locals -> list (OutboundEvent float) * Locals * outcome A.

Definition gen_ret {A} (a : A) : Gen A := fun l => ([], l, Normal a).

Definition gen_bind {A B} (k : A -> Gen B) (m : Gen A) : Gen B :=
  fun l =>
    let '(out1, l1, r) := m l in
    match r with
    | Normal a => let '(out2, l2, r2) := k a l1 in (out1 ++ out2, l2, r2)
    | Raised msg => (out1, l1, Raised msg)
    end.

(** [yield e] *)
Definition yield (e : OutboundEvent float) : Gen unit :=
  fun l => ([e], l, Normal tt).

(** [raise] *)
Definition raise {A} (msg : string) : Gen A := fun l => ([], l, Raised msg).

(** [try: m  except Exception as e: handler(str(e))] *)
Definition try_except (m : Gen unit) (handler : string -> Gen unit) : Gen unit :=
  fun l =>
    let '(out1, l1, r) := m l in
    match r with
    | Normal a => (out1, l1, Normal a)
    | Raised msg =>
        let '(out2, l2, r2) := handler msg l1 in (out1 ++ out2, l2, r2)
    end.

Definition get_locals : Gen Locals := fun l => ([], l, Normal l).

Definition set_input_tokens (n : Z) : Gen unit :=
  fun l => ([], {| input_tokens := n; output_tokens := output_tokens l |}, Normal tt).

Definition set_output_tokens (n : Z) : Gen unit :=
  fun l => ([], {| input_tokens := input_tokens l; output_tokens := n |}, Normal tt).

End Generator.

#[global] Instance Gen_ret {float} : MRet (@Gen float) := fun A => gen_ret.
#[global] Instance Gen_bind {float} : MBind (@Gen float) := fun A B => gen_bind.

(** [runner.run_async(user_id="web_user", session_id=session.id,
    new_message=content)] for the variables [event_stream] captured. *)
Definition turn_feed (run_async : Runner -> string -> string -> Feed)
    (s : Stream) : Feed :=
  run_async (st_runner s) (id (st_session s)) (st_content s).

Section EventStream.
Context {float : Type} `{Clock float}.

Local Abbreviation Gen := (@Gen float).

(** [for x in l: body(x)] *)
Fixpoint for_each {X} (l : list X) (body : X -> Gen unit) : Gen unit :=
  match l with
  | [] => mret tt
  | x :: l' => body x;; for_each l' body
  end.

(** [for part in event.content.parts: body(part)]; iterating [None]
    raises a [TypeError]. *)
Definition for_parts (c : Content) (body : Part -> Gen unit) : Gen unit :=
  match parts c with
  | None => raise "'NoneType' object is not iterable"
  | Some ps => for_each ps body
  end.

(** [async for event in feed: body(event)] *)
Definition async_for (feed : Feed) (body : Event -> Gen unit) : Gen unit :=
  for_each (events feed) body;;
  match raises feed with
  | None => mret tt
  | Some msg => raise msg
  end.

Definition when {A} (o : option A) (body : A -> Gen unit) : Gen unit :=
  match o with
  | Some a => body a
  | None => mret tt
  end.

(** [fn.name if hasattr(fn, "name") else str(fn)] *)
Definition tool_name (fn : FunctionCall) : option string :=
  match fc_name fn with
  | Attr n => n
  | NoAttr => Some (fc_str fn)
  end.

(** The counters' update of one raw event (lines 160-165). *)
Definition update_usage (event : Event) : Gen unit :=
  match usage_metadata event with
  | Attr usage =>
      match usage with
      | Some usage =>
          match prompt_token_count usage with
          | Attr n => set_input_tokens (Py.or_zero n)
          | NoAttr => mret tt
          end;;
          match candidates_token_count usage with
          | Attr n => set_output_tokens (Py.or_zero n)
          | NoAttr => mret tt
          end
      | None => mret tt    (* hasattr(None, ...) is False *)
      end
  | NoAttr => mret tt
  end.

(** The body of the [async for] loop (lines 160-177). *)
Definition on_event (event : Event) : Gen unit :=
  update_usage event;;
  when (attr_truthy (content event)) (fun c =>
    for_parts c (fun part =>
      when (attr_truthy_str (part_text part)) (fun t =>
        yield (text_ev t))));;
  when (attr_truthy (content event)) (fun c =>
    for_parts c (fun part =>
      when (attr_truthy (function_call part)) (fun fn =>
        yield (tool_ev (tool_name fn))))).

(** The body of [event_stream]; [start_time] and [end_time] are the two
    readings of [time.time()], [feed] is what [runner.run_async] delivers. *)
Definition event_stream_body (session_id : string) (feed : Feed)
    (start_time end_time : float) : Gen unit :=
  yield (session_ev session_id);;
  try_except
    (async_for feed on_event)
    (fun e => yield (error_ev e));;
  let duration := fsub end_time start_time in
  l ← get_locals;
  yield (done_ev (round duration 2) (input_tokens l) (output_tokens l)).

Definition run_generator (g : Gen unit)
    : list (OutboundEvent float) * outcome unit :=
  let '(out, _, r) := g {| input_tokens := 0; output_tokens := 0 |} in (out, r).

(** [event_stream]: the frames sent to the client when the generator is
    consumed to its end, and how the generator ended. *)
Definition event_stream (run_async : Runner -> string -> string -> Feed)
    (s : Stream) (start_time end_time : float)
    : list (OutboundEvent float) * outcome unit :=
  let feed := turn_feed run_async s in
  run_generator (event_stream_body (st_session_id s) feed start_time end_time).

End EventStream.

(** ** The server as a state machine

    The states the two process-wide objects can be in: [query] and
    [reset_session] run from the initial state in any order. The session
    service generates ids that are not empty and not in use (uuid4). *)
Inductive reachable : State -> Prop :=
| reachable_init : reachable init
| reachable_query uuid request st :
    reachable st ->
    uuid <> "" ->
    session_service st !! uuid = None ->
    reachable (query uuid request st).1
| reachable_reset body st :
    reachable st ->
    reachable (reset_session body st).1.

(** The request passes the checks made before the registry is consulted:
    bearer token, message, project id. *)
Definition passes_validation (request : Request) : bool :=
  match _extract_token request with
  | Return _ =>
      Py.truthy_str (Py.strip (default "" (message (json request))))
      && Py.truthy (project_id (json request))
  | Raise_HTTPException _ _ => false
  end.

(** The same request with another message. *)
Definition with_message (m : option string) (request : Request) : Request :=
  {| Authorization := Authorization request;
     json := {| message := m;
                project_id := project_id (json request);
                dataset := dataset (json request);
                session_id := session_id (json request) |} |}.

(** A string of whitespace characters only. *)
Fixpoint whitespace_only (s : string) : bool :=
  match s with
  | EmptyString => true
  | String c s' => Py.isspace c && whitespace_only s'
  end.

(** ** Concurrent requests

    Handlers are coroutines on one event loop: a handler runs until it
    suspends, then any other may run. [query] runs without suspending up to
    the [StreamingResponse]; consuming [event_stream] suspends at every raw
    event of the runtime. The code takes no lock, so no task is ever
    blocked. *)
Inductive Task : Type :=
| Pending (uuid : string) (request : Request)     (* received, not yet run *)
| Streaming (s : Stream) (remaining : list Event) (* turn in flight *)
| Completed.

Record System := {
  procs : State;
  tasks : list Task
}.

Inductive Action : Type :=
| Arrive (uuid : string) (request : Request)   (* a new request comes in *)
| Resume (i : nat).                            (* the loop runs task [i] *)

Section Scheduler.
Context (run_async : Runner -> string -> string -> Feed).

(** Task [t] runs up to its next suspension. *)
Definition resume (t : Task) (st : State) : State * Task :=
  match t with
  | Pending uuid request =>
      let '(st', r) := query uuid request st in
      match r with
      | Return (StreamingResponse s) =>
          (st', Streaming s (events (turn_feed run_async s)))
      | _ => (st', Completed)
      end
  | Streaming s (_ :: remaining) => (st, Streaming s remaining)
  | Streaming s [] => (st, Completed)
  | Completed => (st, Completed)
  end.

Definition sched_step (sys : System) (a : Action) : System :=
  match a with
  | Arrive uuid request =>
      {| procs := procs sys; tasks := tasks sys ++ [Pending uuid request] |}
  | Resume i =>
      match tasks sys !! i with
      | Some t =>
          let '(st', t') := resume t (procs sys) in
          {| procs := st'; tasks := <[i := t']> (tasks sys) |}
      | None => sys
      end
  end.

Definition schedule (sys : System) (l : list Action) : System :=
  foldl sched_step sys l.
End Scheduler.

(** Task [t] has a turn in flight on session [sid]. *)
Definition turn_on (sid : string) (t : Task) : bool :=
  match t with
  | Streaming s _ => bool_decide (id (st_session s) = sid)
  | _ => false
  end.

(** The number of turns in flight on session [sid]. *)
Definition in_flight (sid : string) (sys : System) : nat :=
  length (filter (fun t => turn_on sid t = true) (tasks sys)).

(** ** What the translator is to emit, in the words of its contract *)

(** The text fragments of a raw event, in content order: the non-empty
    texts of its parts. *)
Definition text_fragments (event : Event) : list string :=
  match attr_truthy (content event) with
  | Some c => omap (fun p => attr_truthy_str (part_text p)) (default [] (parts c))
  | None => []
  end.

(** The tool invocations of a raw event, in content order. *)
Definition tool_calls (event : Event) : list FunctionCall :=
  match attr_truthy (content event) with
  | Some c => omap (fun p => attr_truthy (function_call p)) (default [] (parts c))
  | None => []
  end.

(** The outbound events of one raw event: its texts, then its tools. *)
Definition translate {float} (event : Event) : list (OutboundEvent float) :=
  map text_ev (text_fragments event)
  ++ map (fun fn => tool_ev (tool_name fn)) (tool_calls event).

(** The parts of the event's content can be iterated. *)
Definition iterable (event : Event) : bool :=
  match attr_truthy (content event) with
  | Some c => bool_decide (is_Some (parts c))
  | None => true
  end.

(** The raw events the loop takes from the feed: all of them, or those up to
    the first whose parts cannot be iterated. *)
Fixpoint consumed (evs : list Event) : list Event :=
  match evs with
  | [] => []
  | e :: evs' => if iterable e then e :: consumed evs' else [e]
  end.

(** The exception that ends the loop, if any: the [TypeError] of the first
    event whose parts cannot be iterated, else what the feed raises. *)
Definition loop_error (feed : Feed) : option string :=
  if forallb iterable (events feed) then raises feed
  else Some "'NoneType' object is not iterable".

(** What one raw event says about a counter: nothing, or a value that may
    be null. *)
Definition reported (sel : UsageMetadata -> attr (option Z)) (event : Event)
    : option (option Z) :=
  match usage_metadata event with
  | Attr (Some usage) =>
      match sel usage with
      | Attr n => Some n
      | NoAttr => None
      end
  | _ => None
  end.

(** The latest value reported for a counter, null counted as 0; 0 if none. *)
Definition last_reported (sel : UsageMetadata -> attr (option Z))
    (evs : list Event) : Z :=
  default 0 (Py.or_zero <$> last (omap (reported sel) evs)).

(** The latest non-null value reported for a counter; 0 if none. *)
Definition latest_non_null (sel : UsageMetadata -> attr (option Z))
    (evs : list Event) : Z :=
  default 0 (last (omap (fun e => mjoin (reported sel e)) evs)).

(** The counters after one raw event. *)
Definition bump (event : Event) (l : Locals) : Locals :=
  {| input_tokens :=
       match reported prompt_token_count event with
       | Some n => Py.or_zero n
       | None => input_tokens l
       end;
     output_tokens :=
       match reported candidates_token_count event with
       | Some n => Py.or_zero n
       | None => output_tokens l
       end |}.

(** The counters when the loop over the feed has ended. *)
Definition final_counters (feed : Feed) : Locals :=
  foldl (fun l e => bump e l) {| input_tokens := 0; output_tokens := 0 |}
        (consumed (events feed)).

(** The counters of the last outbound event, if it is a [done] event. *)
Definition done_counters {float} (out : list (OutboundEvent float))
    : option (Z * Z) :=
  match last out with
  | Some (done_ev _ i o) => Some (i, o)
  | _ => None
  end.

Definition is_session {float} (e : OutboundEvent float) : bool :=
  match e with session_ev _ => true | _ => false end.
Definition is_error {float} (e : OutboundEvent float) : bool :=
  match e with error_ev _ => true | _ => false end.
Definition is_done {float} (e : OutboundEvent float) : bool :=
  match e with done_ev _ _ _ => true | _ => false end.

(** A clock for the examples: readings in hundredths of a second, which
    rounding to two decimals leaves as they are. *)
Definition centi_clock : Clock Z :=
  {| fsub := Z.sub; round := fun x _ => x |}.

(** ** The discovery contract, in its words *)

(** The order of the display field without regard to case. *)
Definition le_ignoring_case (a b : string) : Prop :=
  String.le (Py.lower a) (Py.lower b).

(** An endpoint, as a function of the upstream reply, maps the upstream
    authorization failure to an error of its own: one status and detail for
    every 403 reply, whatever its body (a generic upstream failure carries
    the reply's status and body). *)
Definition maps_403_to_own_error {D A : Type}
    (endpoint : UpstreamResponse D -> result A) : Prop :=
  exists detail,
    forall resp, status_code resp = 403 ->
                 endpoint resp = Raise_HTTPException 403 detail.

(** ** Inputs of the examples *)

Module Examples.

Definition text_part (t : string) : Part :=
  {| part_text := Attr (Some t); function_call := Attr None |}.

Definition tool_part (n : string) : Part :=
  {| part_text := Attr None;
     function_call := Attr (Some {| fc_name := Attr (Some n); fc_str := n |}) |}.

Definition usage (i o : option Z) : attr (option UsageMetadata) :=
  Attr (Some {| prompt_token_count := Attr i; candidates_token_count := Attr o |}).

Definition raw (u : attr (option UsageMetadata)) (ps : list Part) : Event :=
  {| usage_metadata := u; content := Attr (Some {| parts := Some ps |}) |}.

(** Two text fragments, then the runtime raises. *)
Definition broken_feed : Feed :=
  {| events := [raw (Attr None) [text_part "Hello"];
                raw (Attr None) [text_part " world"]];
     raises := Some "boom" |}.

(** Usage 10/5, then an event whose prompt count is null. *)
Definition null_usage_feed : Feed :=
  {| events := [raw (usage (Some 10) (Some 5)) [text_part "a"];
                raw (usage None (Some 7)) [text_part "b"]];
     raises := None |}.

Definition a_session : Session :=
  {| id := "s1"; s_app_name := "bigquery_agent"; s_user_id := "web_user" |}.

Definition a_runner : Runner :=
  {| agent := create_bigquery_agent "tok" "proj" None default_model;
     r_app_name := "bigquery_agent" |}.

Definition a_stream : Stream :=
  {| st_session_id := "s1"; st_runner := a_runner;
     st_session := a_session; st_content := "hi" |}.

(** A first message, and a later one naming the session ["s1"]. *)
Definition first_request : Request :=
  {| Authorization := Some "Bearer tok";
     json := {| message := Some "hi"; project_id := Some "proj";
                dataset := None; session_id := None |} |}.

Definition next_request : Request :=
  {| Authorization := Some "Bearer other";
     json := {| message := Some "more"; project_id := Some "proj2";
                dataset := Some "ds"; session_id := Some "s1" |} |}.

Definition blank_request : Request :=
  {| Authorization := Some "Bearer tok";
     json := {| message := Some "  "; project_id := Some "proj";
                dataset := None; session_id := None |} |}.

Definition reset_body : Body :=
  {| message := None; project_id := None; dataset := None;
     session_id := Some "s1" |}.

(** The server after the first message, and the entry it registered. *)
Definition after_first : State := (query "s1" first_request init).1.

Definition first_entry : Entry :=
  {| runner := a_runner; session := a_session; e_project_id := Some "proj" |}.

(** The server after the first message and a reset of its session. *)
Definition after_reset : State := (reset_session reset_body after_first).1.

(** A runtime that delivers two raw events in every turn. *)
Definition two_events : Runner -> string -> string -> Feed :=
  fun _ _ _ => {| events := [raw (Attr None) [text_part "a"];
                             raw (Attr None) [text_part "b"]];
                  raises := None |}.

(** The first message is being answered when the next one, naming the
    same session, comes in and is started. *)
Definition overlapping : System :=
  schedule two_events {| procs := init; tasks := [] |}
           [Arrive "s1" first_request; Resume 0%nat;
            Arrive "s2" next_request; Resume 1%nat].

(** Upstream replies of the dataset listing. *)
Definition datasets_reply (status : Z) (body : string) (ids : list string)
    : string -> string -> UpstreamResponse (option (list DatasetJson)) :=
  fun _ _ => {| status_code := status; text := body;
                resp_json := Some (map Build_DatasetJson ids) |}.

Definition projects_reply (status : Z) (body : string) (ps : list ProjectJson)
    : string -> UpstreamResponse (option (list ProjectJson)) :=
  fun _ => {| status_code := status; text := body; resp_json := Some ps |}.

Definition some_projects : list ProjectJson :=
  [ {| projectId := "p1"; name := Some "beta"; projectNumber := Some "1" |};
    {| projectId := "p2"; name := Some "Alpha"; projectNumber := None |};
    {| projectId := "Gamma"; name := None; projectNumber := Some "3" |} ].

End Examples.

(** ** Further views of the handlers *)

(** The first character of [s] is whitespace. *)
Definition starts_with_space (s : string) : bool :=
  match s with
  | EmptyString => false
  | String c _ => Py.isspace c
  end.

(** The last character of [s] is whitespace. *)
Fixpoint ends_with_space (s : string) : bool :=
  match s with
  | EmptyString => false
  | String c EmptyString => Py.isspace c
  | String _ s' => ends_with_space s'
  end.

(** The same request with another session id. *)
Definition with_session_id (sid : option string) (request : Request) : Request :=
  {| Authorization := Authorization request;
     json := {| message := message (json request);
                project_id := project_id (json request);
                dataset := dataset (json request);
                session_id := sid |} |}.

(** [x] occurs in [s]. *)
Definition occurs_in (x s : string) : Prop :=
  exists pre post, s = pre +:+ x +:+ post.

(** What every registered entry looks like: it is stored under the id of
    its session, the session service holds that session, and its runner
    carries an agent made by the factory for the entry's project. *)
Definition entry_well_formed (st : State) (k : string) (e : Entry) : Prop :=
  id (session e) = k
  /\ k <> ""
  /\ session_service st !! k = Some (session e)
  /\ s_app_name (session e) = "bigquery_agent"
  /\ s_user_id (session e) = "web_user"
  /\ r_app_name (runner e) = "bigquery_agent"
  /\ exists token project ds,
       project <> ""
       /\ e_project_id e = Some project
       /\ agent (runner e)
          = create_bigquery_agent token project ds default_model.

Module MoreExamples.

(** No header, and a header with the wrong scheme. *)
Definition anonymous_request : Request :=
  {| Authorization := None; json := json Examples.first_request |}.


(** A message naming a session the registry does not know. *)
Definition stale_request : Request :=
  {| Authorization := Some "Bearer tok2";
     json := {| message := Some " again "; project_id := Some "proj2";
                dataset := Some "ds"; session_id := Some "gone" |} |}.

(** Projects whose names differ in case only. *)
Definition same_name_projects : list ProjectJson :=
  [ {| projectId := "p1"; name := Some "Sales"; projectNumber := None |};
    {| projectId := "p2"; name := Some "alpha"; projectNumber := None |};
    {| projectId := "p3"; name := Some "sales"; projectNumber := None |} ].

(** A raw event whose content has no parts list, between two texts. *)
Definition no_parts : Event :=
  {| usage_metadata := Examples.usage (Some 3) (Some 4);
     content := Attr (Some {| parts := None |}) |}.

Definition cut_feed : Feed :=
  {| events := [Examples.raw (Attr None) [Examples.text_part "a"];
                no_parts;
                Examples.raw (Attr None) [Examples.text_part "b"]];
     raises := Some "late" |}.

Definition quiet_feed : Feed :=
  {| events := [Examples.raw (Examples.usage (Some 1) (Some 2))
                             [Examples.text_part "a"; Examples.tool_part "t"]];
     raises := None |}.

End MoreExamples.

(** * Properties *)

(** ** The generator, step by step *)

Section GeneratorFacts.
Context {float : Type} `{Clock float}.

Local Abbreviation Gen := (@Gen float).

Lemma bind_run {A B} (m : Gen A) (k : A -> Gen B) l :
  (m ≫= k) l =
  let '(out1, l1, r) := m l in
  match r with
  | Normal a => let '(out2, l2, r2) := k a l1 in (out1 ++ out2, l2, r2)
  | Raised msg => (out1, l1, Raised msg)
  end.
Proof. reflexivity. Qed.

(** A loop whose body yields at most one event per item never raises and
    leaves the counters alone. *)
Lemma for_each_yield {X Y} (f : X -> option Y) (g : Y -> OutboundEvent float)
    (ps : list X) (l : Locals) :
  for_each ps (fun p => when (f p) (fun y => yield (g y))) l
  = (map g (omap f ps), l, Normal tt).
Proof.
  induction ps as [|p ps IH]; [reflexivity|].
  cbn [for_each]. rewrite bind_run. cbn [omap list_omap].
  destruct (f p) as [y|]; cbn; rewrite IH; reflexivity.
Qed.

Lemma update_usage_run (event : Event) (l : Locals) :
  update_usage (float:=float) event l = ([], bump event l, Normal tt).
Proof.
  unfold update_usage, bump, reported.
  destruct (usage_metadata event) as [|[u|]]; try (destruct l; reflexivity).
  rewrite bind_run.
  destruct (prompt_token_count u), (candidates_token_count u);
    destruct l; reflexivity.
Qed.

(** One raw event: its texts, then its tools; a [TypeError] if its parts
    cannot be iterated. *)
Lemma on_event_run (event : Event) (l : Locals) :
  on_event (float:=float) event l
  = (translate event, bump event l,
     if iterable event then Normal tt
     else Raised "'NoneType' object is not iterable").
Proof.
  unfold on_event, translate, text_fragments, tool_calls, iterable.
  rewrite bind_run, update_usage_run.
  destruct (attr_truthy (content event)) as [c|]; cbn [when].
  - unfold for_parts. destruct (parts c) as [ps|]; cbn [default].
    + rewrite bind_run, for_each_yield, for_each_yield. reflexivity.
    + reflexivity.
  - reflexivity.
Qed.

(** The loop over the raw events. *)
Lemma for_each_on_event (evs : list Event) (l : Locals) :
  for_each (float:=float) evs on_event l
  = (flat_map translate (consumed evs),
     foldl (fun l e => bump e l) l (consumed evs),
     if forallb iterable evs then Normal tt
     else Raised "'NoneType' object is not iterable").
Proof.
  revert l. induction evs as [|e evs IH]; intros l; [reflexivity|].
  cbn [for_each]. rewrite bind_run, on_event_run.
  cbn [consumed forallb]. destruct (iterable e); cbn.
  - rewrite IH. reflexivity.
  - rewrite app_nil_r. reflexivity.
Qed.

Lemma async_for_run (feed : Feed) (l : Locals) :
  async_for (float:=float) feed on_event l
  = (flat_map translate (consumed (events feed)),
     foldl (fun l e => bump e l) l (consumed (events feed)),
     match loop_error feed with
     | Some msg => Raised msg
     | None => Normal tt
     end).
Proof.
  unfold async_for, loop_error. rewrite bind_run, for_each_on_event.
  destruct (forallb iterable (events feed)); [|reflexivity].
  destruct (raises feed); cbn; rewrite app_nil_r; reflexivity.
Qed.

(** The whole stream: the session event, the translation of the raw
    events taken from the feed, an error event if the loop was ended by
    an exception, the done event. *)
Lemma event_stream_body_run (sid : string) (feed : Feed) (t0 t1 : float) :
  run_generator (event_stream_body sid feed t0 t1)
  = (session_ev sid
       :: flat_map translate (consumed (events feed))
       ++ match loop_error feed with
          | Some msg => [error_ev msg]
          | None => []
          end
       ++ [done_ev (round (fsub t1 t0) 2)
                   (input_tokens (final_counters feed))
                   (output_tokens (final_counters feed))],
     Normal tt).
Proof.
  unfold run_generator, event_stream_body, final_counters.
  rewrite bind_run. cbn [yield]. rewrite bind_run.
  unfold try_except. rewrite async_for_run.
  destruct (loop_error feed) as [msg|].
  - cbn [yield]. rewrite bind_run. unfold get_locals, yield.
    cbn [app]. rewrite <- app_assoc. reflexivity.
  - rewrite bind_run. unfold get_locals, yield.
    cbn [app]. reflexivity.
Qed.

Lemma translate_kinds (event : Event) :
  Forall (fun e : OutboundEvent float =>
            is_session e = false /\ is_error e = false /\ is_done e = false)
         (translate event).
Proof.
  unfold translate. apply Forall_app; split; apply List.Forall_forall;
    intros e [x [<- _]]%in_map_iff; auto.
Qed.

Lemma flat_map_translate_kinds (evs : list Event) :
  Forall (fun e : OutboundEvent float =>
            is_session e = false /\ is_error e = false /\ is_done e = false)
         (flat_map translate evs).
Proof.
  induction evs as [|e evs IH]; cbn; [constructor|].
  apply Forall_app; split; [apply translate_kinds | exact IH].
Qed.

Lemma consumed_all (evs : list Event) :
  forallb iterable evs = true -> consumed evs = evs.
Proof.
  induction evs as [|e evs IH]; cbn; [reflexivity|].
  destruct (iterable e); cbn; [|discriminate].
  intros Hall. rewrite IH; auto.
Qed.

End GeneratorFacts.

(** ** The counters *)

Lemma foldl_bump_input (evs : list Event) (l : Locals) :
  input_tokens (foldl (fun l e => bump e l) l evs)
  = default (input_tokens l)
      (Py.or_zero <$> last (omap (reported prompt_token_count) evs)).
Proof.
  induction evs as [|e evs IH] using rev_ind; [reflexivity|].
  rewrite foldl_app, omap_app. cbn [foldl omap list_omap bump input_tokens].
  destruct (reported prompt_token_count e) as [n|]; cbn [app].
  - rewrite last_snoc. reflexivity.
  - rewrite app_nil_r. exact IH.
Qed.

Lemma foldl_bump_output (evs : list Event) (l : Locals) :
  output_tokens (foldl (fun l e => bump e l) l evs)
  = default (output_tokens l)
      (Py.or_zero <$> last (omap (reported candidates_token_count) evs)).
Proof.
  induction evs as [|e evs IH] using rev_ind; [reflexivity|].
  rewrite foldl_app, omap_app. cbn [foldl omap list_omap bump output_tokens].
  destruct (reported candidates_token_count e) as [n|]; cbn [app].
  - rewrite last_snoc. reflexivity.
  - rewrite app_nil_r. exact IH.
Qed.

(** ** The streaming event translator *)

Section StreamProperties.
Context {float : Type} `{Clock float}.
Context (run_async : Runner -> string -> string -> Feed).

(** The done event of the stream. *)
Local Abbreviation final_event s start_time end_time :=
  (done_ev (round (fsub end_time start_time) 2)
           (input_tokens (final_counters (turn_feed run_async s)))
           (output_tokens (final_counters (turn_feed run_async s)))).

(** C1. Every stream starts with one session event carrying the resolved
    session id and ends with one done event carrying the rounded elapsed
    time and the final counters, whatever the feed does in between (it may
    raise, it may deliver nothing); no other session or done event is
    emitted, and the generator ends normally. *)
Theorem session_first_done_last (s : Stream) (start_time end_time : float) :
  exists mid,
    event_stream run_async s start_time end_time
    = (session_ev (st_session_id s)
         :: mid ++ [final_event s start_time end_time],
       Normal tt)
    /\ Forall (fun e => is_session e = false /\ is_done e = false) mid.
Proof.
  unfold event_stream. rewrite event_stream_body_run.
  set (feed := turn_feed run_async s).
  exists (flat_map translate (consumed (events feed))
          ++ match loop_error feed with
             | Some msg => [error_ev msg]
             | None => []
             end).
  split.
  - rewrite <- app_assoc. reflexivity.
  - apply Forall_app; split.
    + eapply Forall_impl; [apply flat_map_translate_kinds|].
      cbn. intros e (? & _ & ?); auto.
    + destruct (loop_error feed); repeat constructor.
Qed.

(** C2. When the feed raises after a prefix of raw events (all of them
    taken by the loop), the stream is: session, the translation of the
    prefix, one error event with the exception's message, done; the
    generator itself ends normally. With a prefix that translates to two
    text fragments it is session, text, text, error, done. *)
Theorem runtime_exception_becomes_error_event
    (s : Stream) (start_time end_time : float) (msg : string) :
  raises (turn_feed run_async s) = Some msg ->
  forallb iterable (events (turn_feed run_async s)) = true ->
  event_stream run_async s start_time end_time
  = (session_ev (st_session_id s)
       :: flat_map translate (events (turn_feed run_async s))
       ++ [error_ev msg; final_event s start_time end_time],
     Normal tt)
  /\ Forall (fun e : OutboundEvent float => is_error e = false)
            (flat_map translate (events (turn_feed run_async s)))
  /\ (forall a b,
        flat_map (translate (float:=float)) (events (turn_feed run_async s))
        = [text_ev a; text_ev b] ->
        (event_stream run_async s start_time end_time).1
        = [session_ev (st_session_id s); text_ev a; text_ev b;
           error_ev msg; final_event s start_time end_time]).
Proof.
  intros Hraise Hiter.
  assert (Hstream :
    event_stream run_async s start_time end_time
    = (session_ev (st_session_id s)
         :: flat_map translate (events (turn_feed run_async s))
         ++ [error_ev msg; final_event s start_time end_time],
       Normal tt)).
  { unfold event_stream. rewrite event_stream_body_run.
    unfold loop_error. rewrite Hiter, Hraise, (consumed_all _ Hiter).
    reflexivity. }
  split; [exact Hstream|]. split.
  - eapply Forall_impl; [apply flat_map_translate_kinds|].
    cbn. intros e (_ & ? & _); auto.
  - intros a b Hab. rewrite Hstream. cbn [fst]. rewrite Hab. reflexivity.
Qed.

(** C3, as the code has it. The counters of the done event are, for each
    counter, the value in the latest raw event taken from the feed whose
    usage metadata has that counter, a null value counting as 0 (so a
    later null replaces an earlier value by 0); 0 if there is none.
    Values are not added up. *)
Theorem done_reports_last_usage (s : Stream) (start_time end_time : float) :
  done_counters (event_stream run_async s start_time end_time).1
  = Some (last_reported prompt_token_count
            (consumed (events (turn_feed run_async s))),
          last_reported candidates_token_count
            (consumed (events (turn_feed run_async s)))).
Proof.
  unfold event_stream. rewrite event_stream_body_run. cbn [fst].
  unfold done_counters.
  rewrite app_comm_cons, app_assoc, last_snoc.
  unfold final_counters, last_reported.
  rewrite foldl_bump_input, foldl_bump_output. reflexivity.
Qed.

(** C4. One raw event yields its text fragments (the non-empty texts of
    its parts), one text event each, in content order, and then its tool
    invocations, one tool event each, in content order; the stream is the
    session event, these translations in the order of the feed, and a
    tail of error and done events only. *)
Theorem texts_then_tools_in_order (s : Stream) (start_time end_time : float) :
  (forall event l,
      (on_event (float:=float) event l).1.1
      = map text_ev (text_fragments event)
        ++ map (fun fn => tool_ev (tool_name fn)) (tool_calls event))
  /\ exists tail,
      (event_stream run_async s start_time end_time).1
      = session_ev (st_session_id s)
          :: flat_map translate (consumed (events (turn_feed run_async s)))
          ++ tail
      /\ Forall (fun e => is_error e = true \/ is_done e = true) tail.
Proof.
  split.
  - intros event l. rewrite on_event_run. reflexivity.
  - unfold event_stream. rewrite event_stream_body_run. cbn [fst].
    eexists. split; [reflexivity|].
    destruct (loop_error (turn_feed run_async s)); cbn [app];
      repeat (constructor; [(left; reflexivity) || (right; reflexivity)|]);
      constructor.
Qed.

End StreamProperties.

(** C2, on the example: two text fragments, then the runtime raises. *)
Lemma broken_feed_stream :
  (raises (turn_feed (fun _ _ _ => Examples.broken_feed) Examples.a_stream)
     = Some "boom"
   /\ forallb iterable
        (events (turn_feed (fun _ _ _ => Examples.broken_feed) Examples.a_stream))
      = true)
  /\ (event_stream (H:=centi_clock) (fun _ _ _ => Examples.broken_feed)
                   Examples.a_stream 100 250).1
     = [session_ev "s1"; text_ev "Hello"; text_ev " world";
        error_ev "boom"; done_ev 150 0 0].
Proof.
  split; [split; reflexivity|].
  apply (runtime_exception_becomes_error_event (H:=centi_clock)
           (fun _ _ _ => Examples.broken_feed) Examples.a_stream 100 250 "boom"
           eq_refl eq_refl).
  reflexivity.
Defined.

(** A raw event whose content is text, tool call, text: both texts come
    before the tool event. *)
Lemma mixed_parts_texts_first :
  (on_event (float:=Z)
     (Examples.raw (Attr None)
        [Examples.text_part "a"; Examples.tool_part "t"; Examples.text_part "b"])
     {| input_tokens := 0; output_tokens := 0 |}).1.1
  = [text_ev "a"; text_ev "b"; tool_ev (Some "t")].
Proof. reflexivity. Qed.

(** C3, as the claim has it, fails: after the counts 10/5 an event with a
    null prompt count and the count 7 makes the done event report 0 input
    tokens, where the latest non-null value is 10. *)
Lemma null_usage_overwrites_counter :
  done_counters
    (event_stream (H:=centi_clock) (fun _ _ _ => Examples.null_usage_feed)
                  Examples.a_stream 100 250).1
  = Some (0, 7)
  /\ (latest_non_null prompt_token_count (events Examples.null_usage_feed),
      latest_non_null candidates_token_count (events Examples.null_usage_feed))
     = (10, 7)
  /\ done_counters
       (event_stream (H:=centi_clock) (fun _ _ _ => Examples.null_usage_feed)
                     Examples.a_stream 100 250).1
     <> Some (latest_non_null prompt_token_count (events Examples.null_usage_feed),
              latest_non_null candidates_token_count
                (events Examples.null_usage_feed)).
Proof.
  split; [reflexivity|]. split; [reflexivity|].
  intros Heq. vm_compute in Heq. discriminate Heq.
Qed.

(** ** The session registry *)

Lemma query_state (uuid : string) (request : Request) (st : State) :
  (query uuid request st).1 = st
  \/ exists entry sess,
      (query uuid request st).1
      = {| active_runners := <[uuid := entry]> (active_runners st);
           session_service := <[uuid := sess]> (session_service st) |}.
Proof.
  unfold query.
  destruct (_extract_token request) as [tok|]; [|left; reflexivity].
  destruct (negb (Py.truthy_str _)); [left; reflexivity|].
  destruct (negb (Py.truthy _)); [left; reflexivity|].
  destruct (registry_hit _ _) as [[sid e]|]; [left; reflexivity|].
  right. cbn. eauto.
Qed.

Lemma reset_state (body : Body) (st : State) :
  (reset_session body st).1 = st
  \/ exists sid,
      session_id body = Some sid /\ sid <> ""
      /\ (reset_session body st).1
         = {| active_runners := delete sid (active_runners st);
              session_service := session_service st |}.
Proof.
  unfold reset_session. destruct (session_id body) as [sid|]; [|left; reflexivity].
  destruct sid as [|c sid]; [left; reflexivity|].
  cbn [Py.truthy_str andb].
  destruct (bool_decide _); [|left; reflexivity].
  right. eexists. split; [reflexivity|]. split; [discriminate|reflexivity].
Qed.

(** No entry is ever registered under the empty id. *)
Lemma reachable_no_empty_key (st : State) :
  reachable st -> active_runners st !! "" = None.
Proof.
  induction 1 as [|uuid request st Hst IH Hne Hfresh|body st Hst IH].
  - reflexivity.
  - destruct (query_state uuid request st) as [->|(entry & sess & ->)];
      [exact IH|].
    cbn. rewrite lookup_insert_ne; [exact IH | exact Hne].
  - destruct (reset_state body st) as [->|(sid & _ & _ & ->)]; [exact IH|].
    cbn. destruct (decide (sid = "")) as [->|Hne].
    + apply lookup_delete_eq.
    + rewrite lookup_delete_ne; [exact IH | exact Hne].
Qed.

(** Every registered id is an id of the session service. *)
Lemma reachable_registry_in_service (st : State) :
  reachable st -> dom (active_runners st) ⊆ dom (session_service st).
Proof.
  induction 1 as [|uuid request st Hst IH Hne Hfresh|body st Hst IH].
  - reflexivity.
  - destruct (query_state uuid request st) as [->|(entry & sess & ->)];
      [exact IH|].
    cbn. rewrite !dom_insert_L. apply union_mono_l, IH.
  - destruct (reset_state body st) as [->|(sid & _ & _ & ->)]; [exact IH|].
    cbn. rewrite dom_delete_L. apply subseteq_difference_l, IH.
Qed.

Lemma registry_hit_found (sid : string) (e : Entry) (m : gmap string Entry) :
  sid <> "" -> m !! sid = Some e -> registry_hit (Some sid) m = Some (sid, e).
Proof.
  intros Hne Hm. unfold registry_hit.
  destruct sid; [congruence|]. cbn. rewrite Hm. reflexivity.
Qed.

(** C5. A request naming a registered session leaves the registry and the
    session service as they are; if it passes validation it is answered by
    a stream on the entry's runner and session, into which the request's
    token, project id and dataset do not enter; if it is rejected, nothing
    is streamed at all. *)
Theorem session_hit_reuses_entry
    (uuid : string) (request : Request) (st : State) (sid : string) (e : Entry) :
  reachable st ->
  session_id (json request) = Some sid ->
  active_runners st !! sid = Some e ->
  (query uuid request st).1 = st
  /\ (passes_validation request = true ->
      (query uuid request st).2
      = Return (StreamingResponse
                  {| st_session_id := sid;
                     st_runner := runner e;
                     st_session := session e;
                     st_content := Py.strip (default "" (message (json request))) |}))
  /\ (forall s,
        (query uuid request st).2 = Return (StreamingResponse s) ->
        st_session_id s = sid /\ st_runner s = runner e /\ st_session s = session e).
Proof.
  intros Hst Hsid He.
  assert (Hne : sid <> "").
  { intros ->. rewrite (reachable_no_empty_key st Hst) in He. discriminate. }
  unfold passes_validation, query. rewrite Hsid.
  destruct (_extract_token request) as [tok|c d].
  2:{ cbn. split; [reflexivity|]. split; [discriminate|]. intros s Hs. discriminate. }
  destruct (Py.truthy_str (Py.strip _)); cbn [negb andb].
  2:{ cbn. split; [reflexivity|]. split; [discriminate|]. intros s Hs. discriminate. }
  destruct (Py.truthy (project_id (json request))); cbn [negb].
  2:{ cbn. split; [reflexivity|]. split; [discriminate|]. intros s Hs. discriminate. }
  rewrite (registry_hit_found sid e _ Hne He). cbn.
  split; [reflexivity|]. split; [reflexivity|].
  intros s [= <-]. auto.
Qed.

Lemma after_first_reachable : reachable Examples.after_first.
Proof.
  apply (reachable_query "s1" Examples.first_request init reachable_init).
  - discriminate.
  - reflexivity.
Qed.

(** C5, on the example: the second message names the session of the first
    and brings another token, project and dataset. *)
Lemma next_request_reuses_first_entry :
  (reachable Examples.after_first
   /\ session_id (json Examples.next_request) = Some "s1"
   /\ active_runners Examples.after_first !! "s1" = Some Examples.first_entry)
  /\ (query "s2" Examples.next_request Examples.after_first).1
     = Examples.after_first.
Proof.
  split.
  - split; [exact after_first_reachable|]. split; reflexivity.
  - apply (session_hit_reuses_entry "s2" Examples.next_request
             Examples.after_first "s1" Examples.first_entry
             after_first_reachable eq_refl eq_refl).
Defined.

(** C6, as the code has it. A reset releases the registry entry only: the
    session service keeps every session, the id named by the request is
    not registered afterwards, the other entries stay, and the registered
    ids remain ids of the session service. *)
Theorem reset_releases_registry_entry_only (body : Body) (st : State) :
  reachable st ->
  session_service (reset_session body st).1 = session_service st
  /\ (forall sid, session_id body = Some sid ->
                  active_runners (reset_session body st).1 !! sid = None)
  /\ (forall sid, session_id body <> Some sid ->
                  active_runners (reset_session body st).1 !! sid
                  = active_runners st !! sid)
  /\ dom (active_runners (reset_session body st).1)
     ⊆ dom (session_service (reset_session body st).1).
Proof.
  intros Hst. split; [|split; [|split]].
  - destruct (reset_state body st) as [->|(sid & _ & _ & ->)]; reflexivity.
  - intros sid Hsid. unfold reset_session. rewrite Hsid.
    destruct sid as [|c sid]; [exact (reachable_no_empty_key st Hst)|].
    cbn [Py.truthy_str andb]. case_bool_decide as Hin; cbn.
    + apply lookup_delete_eq.
    + destruct (active_runners st !! String c sid) eqn:E; [|reflexivity].
      exfalso. apply Hin. eauto.
  - intros sid Hsid.
    destruct (reset_state body st) as [->|(sid' & Hsid' & _ & ->)];
      [reflexivity|].
    cbn. apply lookup_delete_ne. congruence.
  - apply reachable_registry_in_service, reachable_reset, Hst.
Qed.

Lemma reset_after_first_keeps_service_session :
  reachable Examples.after_first
  /\ session_service Examples.after_reset
     = session_service Examples.after_first.
Proof.
  split; [exact after_first_reachable|].
  apply (reset_releases_registry_entry_only Examples.reset_body
           Examples.after_first after_first_reachable).
Defined.

(** C6, as the claim has it, fails: after the first message and a reset of
    its session, which the server can reach, the registry has no entry for
    ["s1"] while the session service still holds the session ["s1"]; the
    two key spaces differ. *)
Lemma reset_breaks_key_correspondence :
  reachable Examples.after_reset
  /\ active_runners Examples.after_reset !! "s1" = None
  /\ session_service Examples.after_reset !! "s1" = Some Examples.a_session
  /\ dom (active_runners Examples.after_reset)
     <> dom (session_service Examples.after_reset).
Proof.
  split; [apply reachable_reset, after_first_reachable|].
  split; [reflexivity|]. split; [reflexivity|].
  intros Hdom.
  assert (Hin : "s1" ∈ dom (session_service Examples.after_reset)).
  { apply elem_of_dom. eexists. reflexivity. }
  rewrite <- Hdom in Hin. apply elem_of_dom in Hin as [e He].
  discriminate He.
Qed.

(** ** Validation of the message *)

Lemma lstrip_whitespace_only (s : string) :
  whitespace_only s = true -> Py.lstrip s = "".
Proof.
  induction s as [|c s IH]; cbn; [reflexivity|].
  destruct (Py.isspace c); cbn; [exact IH | discriminate].
Qed.

Lemma strip_whitespace_only (s : string) :
  whitespace_only s = true -> Py.strip s = "".
Proof.
  intros Hs. unfold Py.strip. rewrite (lstrip_whitespace_only s Hs). reflexivity.
Qed.

(** C10. A request whose message is whitespace only is answered exactly as
    the same request with the empty message: the server's state is left as
    it is, nothing is streamed, and with a bearer token the answer is the
    400 response ["Empty message"], whatever the state and the rest of
    the request are. *)
Theorem blank_message_rejected
    (uuid : string) (request : Request) (st : State) (ws : string) :
  message (json request) = Some ws ->
  whitespace_only ws = true ->
  query uuid request st = query uuid (with_message (Some "") request) st
  /\ (query uuid request st).1 = st
  /\ (forall s, (query uuid request st).2 <> Return (StreamingResponse s))
  /\ (forall tok, _extract_token request = Return tok ->
        (query uuid request st).2 = Return (JSONResponse "Empty message" 400)).
Proof.
  intros Hmsg Hws.
  assert (Hstrip : Py.strip (default "" (message (json request))) = "").
  { rewrite Hmsg. exact (strip_whitespace_only ws Hws). }
  assert (Hsame : _extract_token (with_message (Some "") request)
                  = _extract_token request) by reflexivity.
  unfold query. rewrite Hsame, Hstrip.
  change (Py.strip (default "" (message (json (with_message (Some "") request)))))
    with "".
  destruct (_extract_token request) as [tok|c d]; cbn.
  - split; [reflexivity|]. split; [reflexivity|]. split; [discriminate|].
    reflexivity.
  - split; [reflexivity|]. split; [reflexivity|]. split; [discriminate|].
    intros tok [=].
Qed.

Lemma blank_request_rejected :
  (message (json Examples.blank_request) = Some "  "
   /\ whitespace_only "  " = true)
  /\ (query "s1" Examples.blank_request init).2
     = Return (JSONResponse "Empty message" 400).
Proof.
  split; [split; reflexivity|].
  apply (blank_message_rejected "s1" Examples.blank_request init "  "
           eq_refl eq_refl) with (tok := "tok").
  reflexivity.
Defined.

(** ** Concurrent requests on one session *)

Lemma query_hit (uuid : string) (request : Request) (st : State)
    (sid : string) (e : Entry) :
  session_id (json request) = Some sid ->
  sid <> "" ->
  active_runners st !! sid = Some e ->
  passes_validation request = true ->
  query uuid request st
  = (st, Return (StreamingResponse
                   {| st_session_id := sid;
                      st_runner := runner e;
                      st_session := session e;
                      st_content := Py.strip (default "" (message (json request))) |})).
Proof.
  intros Hsid Hne He. unfold passes_validation, query.
  destruct (_extract_token request) as [tok|c d]; [|discriminate].
  intros [Hmsg Hproj]%andb_prop. rewrite Hmsg, Hproj, Hsid. cbn [negb].
  rewrite (registry_hit_found sid e _ Hne He). reflexivity.
Qed.

Section Counting.
Context {A : Type} (P : A -> bool).

Lemma count_insert (l : list A) (j : nat) (t t' : A) :
  l !! j = Some t -> P t = false -> P t' = true ->
  length (filter (fun x => P x = true) (<[j := t']> l))
  = S (length (filter (fun x => P x = true) l)).
Proof.
  revert j. induction l as [|x l IH]; intros [|j] Hj Ht Ht'; try discriminate.
  - injection Hj as ->. cbn [insert list_insert].
    rewrite (filter_cons_True _ t' l Ht').
    rewrite (filter_cons_False _ t l); [reflexivity|]. congruence.
  - cbn [insert list_insert]. cbn in Hj.
    destruct (P x) eqn:Hx.
    + rewrite !filter_cons_True by assumption. cbn [length].
      f_equal. exact (IH j Hj Ht Ht').
    + rewrite !filter_cons_False by congruence. exact (IH j Hj Ht Ht').
Qed.

Lemma count_positive (l : list A) (i : nat) (t : A) :
  l !! i = Some t -> P t = true ->
  (1 <= length (filter (fun x => P x = true) l))%nat.
Proof.
  revert i. induction l as [|x l IH]; intros [|i] Hi Ht; try discriminate.
  - injection Hi as ->. rewrite (filter_cons_True _ t l Ht). cbn. lia.
  - cbn in Hi. destruct (P x) eqn:Hx.
    + rewrite filter_cons_True by assumption. cbn. lia.
    + rewrite filter_cons_False by congruence. exact (IH i Hi Ht).
Qed.
End Counting.

(** C7, as the code has it. No turn waits for another: when a turn is in
    flight on the session of a registered entry and a valid request naming
    that entry is pending, the event loop may run the request at once; the
    first turn stays in flight, the second starts on the same runner and
    session, and two turns are in flight on that session. *)
Theorem same_session_turns_overlap
    (run_async : Runner -> string -> string -> Feed) (sys : System)
    (i j : nat) (s : Stream) (remaining : list Event)
    (uuid : string) (request : Request) (sid : string) (e : Entry) :
  tasks sys !! i = Some (Streaming s remaining) ->
  st_session s = session e ->
  tasks sys !! j = Some (Pending uuid request) ->
  session_id (json request) = Some sid ->
  sid <> "" ->
  active_runners (procs sys) !! sid = Some e ->
  passes_validation request = true ->
  tasks (sched_step run_async sys (Resume j)) !! i
  = Some (Streaming s remaining)
  /\ (exists s' remaining',
        tasks (sched_step run_async sys (Resume j)) !! j
        = Some (Streaming s' remaining')
        /\ st_runner s' = runner e /\ st_session s' = session e)
  /\ (2 <= in_flight (id (session e)) (sched_step run_async sys (Resume j)))%nat.
Proof.
  intros Hi Hs Hj Hsid Hne He Hvalid.
  assert (Hij : i <> j) by (intros ->; congruence).
  unfold sched_step. rewrite Hj. unfold resume.
  rewrite (query_hit uuid request (procs sys) sid e Hsid Hne He Hvalid).
  cbn [tasks procs].
  split; [|split].
  - rewrite list_lookup_insert_ne by auto. exact Hi.
  - eexists _, _.
    split; [apply list_lookup_insert_eq; eapply lookup_lt_Some, Hj|].
    split; reflexivity.
  - unfold in_flight. cbn [tasks].
    rewrite (count_insert (turn_on (id (session e))) _ j _ _ Hj);
      [| reflexivity | cbn; apply bool_decide_eq_true; reflexivity].
    apply le_n_S.
    apply (count_positive (turn_on (id (session e))) _ i _ Hi).
    cbn. apply bool_decide_eq_true. rewrite Hs. reflexivity.
Qed.

(** C7, on the example: the turn of the first message is in flight when the
    next message, naming its session, is run. *)
Lemma next_request_overlaps_first_turn :
  (tasks (schedule Examples.two_events {| procs := init; tasks := [] |}
            [Arrive "s1" Examples.first_request; Resume 0%nat;
             Arrive "s2" Examples.next_request]) !! 0%nat
   = Some (Streaming {| st_session_id := "s1";
                        st_runner := Examples.a_runner;
                        st_session := Examples.a_session;
                        st_content := "hi" |}
                     (events (Examples.two_events Examples.a_runner "s1" "hi")))
   /\ passes_validation Examples.next_request = true)
  /\ (2 <= in_flight "s1"
            (sched_step Examples.two_events
               (schedule Examples.two_events {| procs := init; tasks := [] |}
                  [Arrive "s1" Examples.first_request; Resume 0%nat;
                   Arrive "s2" Examples.next_request])
               (Resume 1%nat)))%nat.
Proof.
  split; [split; reflexivity|].
  apply (same_session_turns_overlap Examples.two_events
           (schedule Examples.two_events {| procs := init; tasks := [] |}
              [Arrive "s1" Examples.first_request; Resume 0%nat;
               Arrive "s2" Examples.next_request])
           0%nat 1%nat _ _ "s2" Examples.next_request "s1" Examples.first_entry
           eq_refl eq_refl eq_refl eq_refl).
  - discriminate.
  - reflexivity.
  - reflexivity.
Defined.

(** C7, as the claim has it, fails: in the run where the second message
    comes in while the first is being answered, two turns are in flight on
    the session ["s1"] at once, on the same runner. *)
Lemma two_turns_in_flight_on_one_session :
  in_flight "s1" Examples.overlapping = 2%nat
  /\ ~ (in_flight "s1" Examples.overlapping <= 1)%nat
  /\ (forall t, t ∈ tasks Examples.overlapping ->
        exists s remaining,
          t = Streaming s remaining /\ st_runner s = Examples.a_runner).
Proof.
  split; [reflexivity|]. split.
  - change (in_flight "s1" Examples.overlapping) with 2%nat. lia.
  - intros t Ht.
    let l := eval vm_compute in (tasks Examples.overlapping) in
    change (tasks Examples.overlapping) with l in Ht.
    repeat (apply elem_of_cons in Ht as [->|Ht]; [eexists _, _; split; reflexivity|]).
    apply elem_of_nil in Ht. destruct Ht.
Qed.

(** ** The discovery gateway *)

Section SortFacts.
Context {A : Type} (key : A -> string).

Local Abbreviation by_key := (fun a b : A => String.le (key a) (key b)).

Lemma leb_false_le (a b : string) : String.leb a b = false -> String.le b a.
Proof.
  intros Hab. destruct (String.leb_total a b) as [Hle|Hle].
  - congruence.
  - unfold String.le. rewrite Hle. exact I.
Qed.

Lemma insert_by_HdRel (x a : A) (l : list A) :
  by_key a x -> HdRel by_key a l -> HdRel by_key a (Py.insert_by key x l).
Proof.
  intros Hax Hal. destruct l as [|y l]; cbn.
  - constructor. exact Hax.
  - destruct (String.leb (key x) (key y)); constructor.
    + exact Hax.
    + inversion Hal; assumption.
Qed.

Lemma insert_by_Sorted (x : A) (l : list A) :
  Sorted by_key l -> Sorted by_key (Py.insert_by key x l).
Proof.
  induction 1 as [|y l Hl IH Hhd]; cbn.
  - repeat constructor.
  - destruct (String.leb (key x) (key y)) eqn:Hxy.
    + constructor; [constructor; assumption|].
      constructor. unfold String.le. rewrite Hxy. exact I.
    + constructor; [exact IH|].
      apply insert_by_HdRel; [|exact Hhd].
      apply leb_false_le, Hxy.
Qed.

Lemma insert_by_Permutation (x : A) (l : list A) :
  Permutation (Py.insert_by key x l) (x :: l).
Proof.
  induction l as [|y l IH]; cbn; [reflexivity|].
  destruct (String.leb (key x) (key y)); [reflexivity|].
  rewrite IH. apply perm_swap.
Qed.

Lemma sort_by_Sorted (l : list A) : Sorted by_key (Py.sort_by key l).
Proof.
  induction l as [|x l IH]; cbn; [constructor|].
  apply insert_by_Sorted, IH.
Qed.

Lemma sort_by_Permutation (l : list A) : Permutation (Py.sort_by key l) l.
Proof.
  induction l as [|x l IH]; cbn; [reflexivity|].
  rewrite insert_by_Permutation, IH. reflexivity.
Qed.
End SortFacts.

(** C8, as the code has it. A successful project listing is the upstream
    projects sorted by display name without regard to case; a successful
    dataset listing is the upstream dataset ids sorted by their code points
    (upper case before lower case), not by the lowered id. *)
Theorem discovery_lists_sorted (request : Request) (token : string) :
  _extract_token request = Return token ->
  (forall client_get ps,
      list_projects client_get request = Return ps ->
      Sorted (fun p q => le_ignoring_case (p_name p) (p_name q)) ps
      /\ Permutation ps
           (map project_of (default [] (resp_json (client_get token)))))
  /\ (forall client_get project_id ds,
        list_datasets client_get request project_id = Return ds ->
        Sorted String.le ds
        /\ Permutation ds
             (map datasetId
                  (default [] (resp_json (client_get token project_id))))).
Proof.
  intros Htok. split.
  - intros client_get ps. unfold list_projects. rewrite Htok. cbn.
    destruct (status_code (client_get token) =? 403); [discriminate|].
    destruct (negb (status_code (client_get token) =? 200)); [discriminate|].
    intros [= <-]. split.
    + apply (sort_by_Sorted (fun p => Py.lower (p_name p))).
    + apply sort_by_Permutation.
  - intros client_get pid ds. unfold list_datasets. rewrite Htok. cbn.
    destruct (negb (status_code (client_get token pid) =? 200)); [discriminate|].
    intros [= <-]. split.
    + apply (sort_by_Sorted (fun s : string => s)).
    + apply sort_by_Permutation.
Qed.

Lemma some_projects_sorted :
  _extract_token Examples.first_request = Return "tok"
  /\ list_projects (Examples.projects_reply 200 "" Examples.some_projects)
                   Examples.first_request
     = Return (map project_of
                 [ {| projectId := "p2"; name := Some "Alpha"; projectNumber := None |};
                   {| projectId := "p1"; name := Some "beta"; projectNumber := Some "1" |};
                   {| projectId := "Gamma"; name := None; projectNumber := Some "3" |} ])
  /\ Sorted (fun p q => le_ignoring_case (p_name p) (p_name q))
            (map project_of
                 [ {| projectId := "p2"; name := Some "Alpha"; projectNumber := None |};
                   {| projectId := "p1"; name := Some "beta"; projectNumber := Some "1" |};
                   {| projectId := "Gamma"; name := None; projectNumber := Some "3" |} ]).
Proof.
  split; [reflexivity|]. split; [reflexivity|].
  apply (proj1 (discovery_lists_sorted Examples.first_request "tok" eq_refl)
           (Examples.projects_reply 200 "" Examples.some_projects)).
  reflexivity.
Defined.

(** C8, as the claim has it, fails for the datasets: the ids ["a"] and
    ["B"] are listed as ["B"; "a"], which is not sorted by the lowered
    id. *)
Lemma datasets_not_sorted_ignoring_case :
  list_datasets (Examples.datasets_reply 200 "" ["a"; "B"])
                Examples.first_request "proj"
  = Return ["B"; "a"]
  /\ ~ Sorted le_ignoring_case ["B"; "a"].
Proof.
  split; [reflexivity|].
  intros Hsorted. inversion Hsorted as [|x l _ Hhd]; subst.
  inversion Hhd as [|y l' Hle]; subst.
  exact Hle.
Qed.

(** C9, as the code has it. With a bearer token: the project listing maps
    an upstream 403 to its own 403 error about the missing scope, whatever
    the upstream body is, and raises every other upstream status but 200
    with the upstream status and body; the dataset listing raises every
    upstream status but 200, the 403 too, with the upstream status and
    body. *)
Theorem upstream_failures_surface (request : Request) (token : string) :
  _extract_token request = Return token ->
  maps_403_to_own_error
    (fun resp => list_projects (fun _ => resp) request)
  /\ (forall client_get,
        status_code (client_get token) <> 403 ->
        status_code (client_get token) <> 200 ->
        list_projects client_get request
        = Raise_HTTPException (status_code (client_get token))
                              (text (client_get token)))
  /\ (forall client_get project_id,
        status_code (client_get token project_id) <> 200 ->
        list_datasets client_get request project_id
        = Raise_HTTPException (status_code (client_get token project_id))
                              (text (client_get token project_id))).
Proof.
  intros Htok. split; [|split].
  - exists scope_detail. intros resp Hresp.
    unfold list_projects. rewrite Htok. cbn. rewrite Hresp. reflexivity.
  - intros client_get H403 H200. unfold list_projects. rewrite Htok. cbn.
    destruct (Z.eqb_spec (status_code (client_get token)) 403); [contradiction|].
    destruct (Z.eqb_spec (status_code (client_get token)) 200); [contradiction|].
    reflexivity.
  - intros client_get pid H200. unfold list_datasets. rewrite Htok. cbn.
    destruct (Z.eqb_spec (status_code (client_get token pid)) 200);
      [contradiction|].
    reflexivity.
Qed.

Lemma datasets_failure_surfaces :
  _extract_token Examples.first_request = Return "tok"
  /\ list_datasets (Examples.datasets_reply 500 "Internal error" [])
                   Examples.first_request "proj"
     = Raise_HTTPException 500 "Internal error".
Proof.
  split; [reflexivity|].
  apply (proj2 (proj2 (upstream_failures_surface Examples.first_request "tok"
                         eq_refl))
           (Examples.datasets_reply 500 "Internal error" []) "proj").
  discriminate.
Defined.

(** C9, as the claim has it, fails for the datasets: an upstream 403 is
    raised with the upstream body, as any other upstream failure is, and
    so two 403 replies with different bodies give different errors. *)
Lemma datasets_403_is_generic :
  list_datasets (Examples.datasets_reply 403 "Access Denied" [])
                Examples.first_request "proj"
  = Raise_HTTPException 403 "Access Denied"
  /\ ~ maps_403_to_own_error
         (fun resp => list_datasets (fun _ _ => resp) Examples.first_request "proj").
Proof.
  split; [reflexivity|].
  intros [detail Hdetail].
  pose proof (Hdetail {| status_code := 403; text := "a"; resp_json := None |}
                      eq_refl) as Ha.
  pose proof (Hdetail {| status_code := 403; text := "b"; resp_json := None |}
                      eq_refl) as Hb.
  cbv in Ha, Hb. congruence.
Qed.

(** * Further properties of the handlers *)

(** ** The bearer token *)

Lemma append_String (c : ascii) (s t : string) :
  String c s +:+ t = String c (s +:+ t).
Proof. reflexivity. Qed.

Lemma startswith_append (p s : string) : Py.startswith p (p +:+ s) = true.
Proof.
  induction p as [|c p IH]; [reflexivity|].
  rewrite append_String. cbn [Py.startswith].
  rewrite Ascii.eqb_refl. exact IH.
Qed.

Lemma drop_append (p s : string) : Py.drop (String.length p) (p +:+ s) = s.
Proof.
  induction p as [|c p IH]; [destruct s; reflexivity|].
  rewrite append_String. exact IH.
Qed.

Lemma startswith_split (p s : string) :
  Py.startswith p s = true -> s = p +:+ Py.drop (String.length p) s.
Proof.
  revert s. induction p as [|c p IH]; intros s Hs.
  - destruct s; reflexivity.
  - destruct s as [|b s]; [discriminate|]. cbn [Py.startswith] in Hs.
    destruct (Ascii.eqb_spec c b) as [->|]; [|discriminate].
    rewrite append_String. cbn [String.length Py.drop]. f_equal. exact (IH s Hs).
Qed.

Lemma extract_token_Return (request : Request) (tok : string) :
  _extract_token request = Return tok
  <-> Authorization request = Some ("Bearer " +:+ tok).
Proof.
  unfold _extract_token. split.
  - destruct (Py.startswith "Bearer " _) eqn:Hstart; cbn [negb]; [|discriminate].
    intros [= <-]. apply startswith_split in Hstart.
    destruct (Authorization request) as [auth|]; [|discriminate Hstart].
    change (default EmptyString (Some auth)) with auth in *.
    f_equal. exact Hstart.
  - intros ->. change (default EmptyString (Some ("Bearer " +:+ tok)))
      with ("Bearer " +:+ tok).
    rewrite startswith_append. cbn [negb].
    rewrite <- (drop_append "Bearer " tok) at 2. reflexivity.
Qed.

Lemma extract_token_Raise (request : Request) (c : Z) (d : string) :
  _extract_token request = Raise_HTTPException c d ->
  c = 401 /\ d = "Missing or invalid Authorization header".
Proof.
  unfold _extract_token. destruct (negb _); [|discriminate].
  intros [= <- <-]. split; reflexivity.
Qed.

(** X1. The token is accepted exactly when the header is ["Bearer "]
    followed by the token (the scheme is case-sensitive and the token may
    be empty); every other header, and a missing one, is answered by the
    401 error. *)
Theorem extract_token_iff_bearer (request : Request) :
  (forall tok,
      _extract_token request = Return tok
      <-> Authorization request = Some ("Bearer " +:+ tok))
  /\ ((forall tok, Authorization request <> Some ("Bearer " +:+ tok))
      <-> _extract_token request
          = Raise_HTTPException 401 "Missing or invalid Authorization header").
Proof.
  split; [intros tok; apply extract_token_Return|]. split.
  - intros Hauth. destruct (_extract_token request) as [tok|c d] eqn:E.
    + apply extract_token_Return in E. destruct (Hauth tok E).
    + apply extract_token_Raise in E as [-> ->]. reflexivity.
  - intros Hraise tok Hauth. apply extract_token_Return in Hauth. congruence.
Qed.

(** X2. Without a bearer token none of the three endpoints does anything:
    each raises the 401 error, whatever the upstream would reply, and
    [query] leaves the registry and the session service as they are. *)
Theorem no_token_no_work (request : Request) :
  (forall tok, Authorization request <> Some ("Bearer " +:+ tok)) ->
  (forall client_get,
      list_projects client_get request
      = Raise_HTTPException 401 "Missing or invalid Authorization header")
  /\ (forall client_get project_id,
        list_datasets client_get request project_id
        = Raise_HTTPException 401 "Missing or invalid Authorization header")
  /\ (forall uuid st,
        query uuid request st
        = (st, Raise_HTTPException 401 "Missing or invalid Authorization header")).
Proof.
  intros Hauth.
  assert (Htok : _extract_token request
                 = Raise_HTTPException 401 "Missing or invalid Authorization header").
  { destruct (_extract_token request) as [tok|c d] eqn:E.
    - apply extract_token_Return in E. destruct (Hauth tok E).
    - apply extract_token_Raise in E as [-> ->]. reflexivity. }
  split; [|split].
  - intros client_get. unfold list_projects. rewrite Htok. reflexivity.
  - intros client_get pid. unfold list_datasets. rewrite Htok. reflexivity.
  - intros uuid st. unfold query. rewrite Htok. reflexivity.
Qed.

Lemma anonymous_request_rejected :
  (forall tok,
      Authorization MoreExamples.anonymous_request <> Some ("Bearer " +:+ tok))
  /\ query "s1" MoreExamples.anonymous_request init
     = (init, Raise_HTTPException 401 "Missing or invalid Authorization header").
Proof.
  split; [discriminate|].
  apply (no_token_no_work MoreExamples.anonymous_request). discriminate.
Defined.

(** ** Trimming the message *)

Lemma lstrip_no_leading_space (s : string) :
  starts_with_space (Py.lstrip s) = false.
Proof.
  induction s as [|c s IH]; cbn; [reflexivity|].
  destruct (Py.isspace c) eqn:Hc; [exact IH|]. cbn. exact Hc.
Qed.

Lemma rstrip_no_trailing_space (s : string) :
  ends_with_space (Py.rstrip s) = false.
Proof.
  induction s as [|c s IH]; cbn; [reflexivity|].
  destruct (Py.rstrip s) as [|b r] eqn:Hr.
  - destruct (Py.isspace c) eqn:Hc; cbn; [reflexivity | exact Hc].
  - cbn in *. exact IH.
Qed.

Lemma rstrip_keeps_head (s : string) :
  starts_with_space s = false -> starts_with_space (Py.rstrip s) = false.
Proof.
  destruct s as [|c s]; cbn; [reflexivity|]. intros Hc.
  destruct (Py.rstrip s); [rewrite Hc|]; cbn; exact Hc.
Qed.

Lemma lstrip_split (s : string) :
  exists l, whitespace_only l = true /\ s = l +:+ Py.lstrip s.
Proof.
  induction s as [|c s (l & Hl & Hs)]; [exists ""; split; reflexivity|].
  cbn [Py.lstrip]. destruct (Py.isspace c) eqn:Hc.
  - exists (String c l). split; [cbn; rewrite Hc; exact Hl|].
    rewrite append_String. f_equal. exact Hs.
  - exists "". split; reflexivity.
Qed.

Lemma append_empty_r (s : string) : s +:+ "" = s.
Proof. induction s as [|c s IH]; [reflexivity|]. rewrite append_String, IH. reflexivity. Qed.

Lemma rstrip_split (s : string) :
  exists r, whitespace_only r = true /\ s = Py.rstrip s +:+ r.
Proof.
  induction s as [|c s (r & Hr & Hs)]; [exists ""; split; reflexivity|].
  cbn [Py.rstrip]. destruct (Py.rstrip s) as [|b t] eqn:Ht.
  - destruct (Py.isspace c) eqn:Hc.
    + exists (String c r). split; [cbn; rewrite Hc; exact Hr|].
      change ("" +:+ String c r) with (String c r). f_equal. exact Hs.
    + exists r. split; [exact Hr|].
      rewrite append_String. f_equal. exact Hs.
  - exists r. split; [exact Hr|].
    rewrite append_String. f_equal. exact Hs.
Qed.



(** ** Validation in [query] *)



(** X4. The message handed to the runtime is the request's message without the
    whitespace around it: it is not empty, it neither starts nor ends with
    whitespace, and the request's message is this text between two runs of
    whitespace. *)
Theorem forwarded_message_is_trimmed
    (uuid : string) (request : Request) (st : State) (s : Stream) :
  (query uuid request st).2 = Return (StreamingResponse s) ->
  st_content s <> ""
  /\ starts_with_space (st_content s) = false
  /\ ends_with_space (st_content s) = false
  /\ exists l r,
      whitespace_only l = true /\ whitespace_only r = true
      /\ message (json request) = Some (l +:+ st_content s +:+ r).
Proof.
  unfold query.
  destruct (_extract_token request) as [tok|c d]; [|discriminate].
  destruct (Py.truthy_str (Py.strip _)) eqn:Hmsg; cbn [negb]; [|discriminate].
  destruct (Py.truthy _); cbn [negb]; [|discriminate].
  assert (Hcontent : st_content s = Py.strip (default "" (message (json request)))
                     -> st_content s <> ""
                        /\ starts_with_space (st_content s) = false
                        /\ ends_with_space (st_content s) = false
                        /\ exists l r,
                            whitespace_only l = true /\ whitespace_only r = true
                            /\ message (json request)
                               = Some (l +:+ st_content s +:+ r)).
  { intros ->. split; [|split; [|split]].
    - intros Hempty. rewrite Hempty in Hmsg. discriminate.
    - apply rstrip_keeps_head, lstrip_no_leading_space.
    - apply rstrip_no_trailing_space.
    - destruct (message (json request)) as [m|]; [|discriminate Hmsg].
      change (default "" (Some m)) with m.
      destruct (lstrip_split m) as (l & Hl & Hsplit).
      destruct (rstrip_split (Py.lstrip m)) as (r & Hr & Hsplit').
      exists l, r. split; [exact Hl|]. split; [exact Hr|].
      unfold Py.strip. rewrite <- Hsplit', <- Hsplit. reflexivity. }
  destruct (registry_hit _ _) as [[sid e]|]; cbn;
    intros [= <-]; apply Hcontent; reflexivity.
Qed.

Lemma stale_request_message_trimmed :
  (query "s9" MoreExamples.stale_request init).2
  = Return (StreamingResponse
              {| st_session_id := "s9";
                 st_runner :=
                   {| agent := create_bigquery_agent "tok2" "proj2" (Some "ds")
                                                     default_model;
                      r_app_name := "bigquery_agent" |};
                 st_session := {| id := "s9"; s_app_name := "bigquery_agent";
                                  s_user_id := "web_user" |};
                 st_content := "again" |})
  /\ ends_with_space "again" = false.
Proof.
  split; [reflexivity|].
  apply (forwarded_message_is_trimmed "s9" MoreExamples.stale_request init
           {| st_session_id := "s9";
              st_runner :=
                {| agent := create_bigquery_agent "tok2" "proj2" (Some "ds")
                                                  default_model;
                   r_app_name := "bigquery_agent" |};
              st_session := {| id := "s9"; s_app_name := "bigquery_agent";
                               s_user_id := "web_user" |};
              st_content := "again" |} eq_refl).
Defined.

(** ** Creating, reusing and resetting sessions *)

Lemma registry_hit_None (o : option string) (m : gmap string Entry) :
  registry_hit o m = None
  <-> o = None \/ o = Some "" \/ exists sid, o = Some sid /\ m !! sid = None.
Proof.
  unfold registry_hit. destruct o as [[|c sid]|]; cbn.
  - split; auto.
  - destruct (m !! String c sid) as [e|] eqn:E.
    + split; [discriminate|].
      intros [|[|(sid' & [= <-] & Hnone)]]; congruence.
    + split; [|reflexivity]. intros _. right. right. eauto.
  - split; auto.
Qed.

Lemma query_miss (uuid : string) (request : Request) (st : State)
    (tok project : string) :
  _extract_token request = Return tok ->
  passes_validation request = true ->
  project_id (json request) = Some project ->
  registry_hit (session_id (json request)) (active_runners st) = None ->
  query uuid request st
  = ({| active_runners :=
          <[uuid := {| runner :=
                         {| agent := create_bigquery_agent tok project
                                       (dataset (json request)) default_model;
                            r_app_name := "bigquery_agent" |};
                       session := {| id := uuid; s_app_name := "bigquery_agent";
                                     s_user_id := "web_user" |};
                       e_project_id := Some project |}]> (active_runners st);
        session_service :=
          <[uuid := {| id := uuid; s_app_name := "bigquery_agent";
                       s_user_id := "web_user" |}]> (session_service st) |},
     Return (StreamingResponse
               {| st_session_id := uuid;
                  st_runner :=
                    {| agent := create_bigquery_agent tok project
                                  (dataset (json request)) default_model;
                       r_app_name := "bigquery_agent" |};
                  st_session := {| id := uuid; s_app_name := "bigquery_agent";
                                   s_user_id := "web_user" |};
                  st_content := Py.strip (default "" (message (json request))) |})).
Proof.
  intros Htok Hvalid Hproj Hmiss. unfold passes_validation in Hvalid.
  unfold query. rewrite Htok in *. apply andb_prop in Hvalid as [Hmsg Hp].
  rewrite Hmsg, Hp, Hmiss, Hproj. reflexivity.
Qed.

(** X5. A session id the registry does not know (also the empty one) counts as
    none: the request is answered as the same request without a session
    id, and the new session gets the id the session service generates,
    not the one the client sent. *)
Theorem unknown_session_id_is_ignored
    (uuid : string) (request : Request) (st : State) :
  registry_hit (session_id (json request)) (active_runners st) = None ->
  query uuid request st = query uuid (with_session_id None request) st
  /\ forall s, (query uuid request st).2 = Return (StreamingResponse s) ->
               st_session_id s = uuid /\ id (st_session s) = uuid.
Proof.
  intros Hmiss.
  assert (Hsame : _extract_token (with_session_id None request)
                  = _extract_token request) by reflexivity.
  unfold query. rewrite Hsame.
  cbn [with_session_id json message project_id dataset session_id].
  rewrite Hmiss. cbn [registry_hit].
  destruct (_extract_token request) as [tok|c d];
    [|split; [reflexivity|discriminate]].
  destruct (negb (Py.truthy_str _)); [split; [reflexivity|discriminate]|].
  destruct (negb (Py.truthy _)); [split; [reflexivity|discriminate]|].
  cbn. split; [reflexivity|]. intros s [= <-]. split; reflexivity.
Qed.

Lemma stale_session_id_ignored :
  registry_hit (session_id (json MoreExamples.stale_request))
               (active_runners init) = None
  /\ query "s9" MoreExamples.stale_request init
     = query "s9" (with_session_id None MoreExamples.stale_request) init.
Proof.
  split; [reflexivity|].
  apply (unknown_session_id_is_ignored "s9" MoreExamples.stale_request init eq_refl).
Defined.

(** X6. A first message creates the session: the entry is registered under the
    generated id with a runner whose agent carries the request's token,
    project and dataset, the session service holds the new session, the
    stream announces the generated id, and every other key of the registry
    and of the session service is as before. *)
Theorem first_message_creates_session
    (uuid : string) (request : Request) (st : State) (tok project : string) :
  _extract_token request = Return tok ->
  passes_validation request = true ->
  project_id (json request) = Some project ->
  registry_hit (session_id (json request)) (active_runners st) = None ->
  exists s e,
    (query uuid request st).2 = Return (StreamingResponse s)
    /\ st_session_id s = uuid
    /\ active_runners (query uuid request st).1 !! uuid = Some e
    /\ runner e = st_runner s /\ session e = st_session s
    /\ e_project_id e = Some project
    /\ tools (agent (runner e))
       = [{| credentials := {| token := tok |}; compute_project_id := project |}]
    /\ agent (runner e)
       = create_bigquery_agent tok project (dataset (json request)) default_model
    /\ session_service (query uuid request st).1 !! uuid = Some (session e)
    /\ id (session e) = uuid
    /\ (forall k, k <> uuid ->
          active_runners (query uuid request st).1 !! k = active_runners st !! k
          /\ session_service (query uuid request st).1 !! k
             = session_service st !! k).
Proof.
  intros Htok Hvalid Hproj Hmiss.
  rewrite (query_miss uuid request st tok project Htok Hvalid Hproj Hmiss).
  cbn [fst snd active_runners session_service].
  eexists _, _. split; [reflexivity|]. split; [reflexivity|].
  split; [apply lookup_insert_eq|].
  repeat (split; [reflexivity|]).
  split; [apply lookup_insert_eq|]. split; [reflexivity|].
  intros k Hk. split; apply lookup_insert_ne; congruence.
Qed.

Lemma first_request_creates_session :
  (_extract_token Examples.first_request = Return "tok"
   /\ passes_validation Examples.first_request = true
   /\ registry_hit (session_id (json Examples.first_request))
                   (active_runners init) = None)
  /\ exists s e,
      (query "s1" Examples.first_request init).2 = Return (StreamingResponse s)
      /\ st_session_id s = "s1"
      /\ active_runners (query "s1" Examples.first_request init).1 !! "s1" = Some e.
Proof.
  split; [repeat split|].
  destruct (first_message_creates_session "s1" Examples.first_request init
              "tok" "proj" eq_refl eq_refl eq_refl eq_refl)
    as (s & e & Hs & Hid & He & _).
  exists s, e. auto.
Defined.

(** X7. Create, then reuse: after a first message has created a session under
    a non-empty id, every later valid message naming that id, whatever its
    token, project and dataset, is answered on the runner and session of
    the first and changes nothing in the state. *)
Theorem created_session_is_reused
    (uuid uuid' : string) (first next : Request) (st : State) :
  passes_validation first = true ->
  registry_hit (session_id (json first)) (active_runners st) = None ->
  uuid <> "" ->
  passes_validation next = true ->
  session_id (json next) = Some uuid ->
  exists s s',
    (query uuid first st).2 = Return (StreamingResponse s)
    /\ query uuid' next (query uuid first st).1
       = ((query uuid first st).1, Return (StreamingResponse s'))
    /\ st_session_id s' = st_session_id s
    /\ st_runner s' = st_runner s
    /\ st_session s' = st_session s.
Proof.
  intros Hvalid Hmiss Hne Hvalid' Hsid.
  assert (Htok : exists tok, _extract_token first = Return tok).
  { unfold passes_validation in Hvalid.
    destruct (_extract_token first); [eauto|discriminate]. }
  destruct Htok as [tok Htok].
  assert (Hproj : exists project, project_id (json first) = Some project).
  { unfold passes_validation in Hvalid. rewrite Htok in Hvalid.
    apply andb_prop in Hvalid as [_ Hp].
    destruct (project_id (json first)); [eauto|discriminate]. }
  destruct Hproj as [project Hproj].
  rewrite (query_miss uuid first st tok project Htok Hvalid Hproj Hmiss).
  cbn [fst snd].
  match goal with
  | |- context [<[uuid := ?entry]> (active_runners st)] => set (e := entry)
  end.
  eexists _, {| st_session_id := uuid; st_runner := runner e;
                st_session := session e;
                st_content := Py.strip (default "" (message (json next))) |}.
  split; [reflexivity|].
  split; [|repeat split].
  apply (query_hit uuid' next _ uuid e Hsid Hne); [|exact Hvalid'].
  cbn [active_runners]. apply lookup_insert_eq.
Qed.

Lemma next_request_reuses_created_session :
  (passes_validation Examples.first_request = true
   /\ registry_hit (session_id (json Examples.first_request))
                   (active_runners init) = None
   /\ "s1" <> ""
   /\ passes_validation Examples.next_request = true
   /\ session_id (json Examples.next_request) = Some "s1")
  /\ exists s s',
      (query "s1" Examples.first_request init).2 = Return (StreamingResponse s)
      /\ query "s2" Examples.next_request (query "s1" Examples.first_request init).1
         = ((query "s1" Examples.first_request init).1,
            Return (StreamingResponse s'))
      /\ st_runner s' = st_runner s.
Proof.
  split; [repeat split; discriminate|].
  destruct (created_session_is_reused "s1" "s2" Examples.first_request
              Examples.next_request init eq_refl eq_refl
              ltac:(discriminate) eq_refl eq_refl)
    as (s & s' & Hs & Hs' & _ & Hr & _).
  exists s, s'. auto.
Defined.

(** X8. A reset, then a valid message naming the reset id: the message starts
    a new session under the id the session service generates, with an
    agent made from this message's token, project and dataset; the reset
    id itself stays unregistered. *)
Theorem reset_then_message_starts_afresh
    (uuid : string) (body : Body) (request : Request) (st : State)
    (sid tok project : string) :
  reachable st ->
  session_id body = Some sid ->
  session_id (json request) = Some sid ->
  _extract_token request = Return tok ->
  passes_validation request = true ->
  project_id (json request) = Some project ->
  uuid <> sid ->
  exists s,
    (query uuid request (reset_session body st).1).2
    = Return (StreamingResponse s)
    /\ st_session_id s = uuid
    /\ agent (st_runner s)
       = create_bigquery_agent tok project (dataset (json request)) default_model
    /\ active_runners (query uuid request (reset_session body st).1).1 !! sid
       = None.
Proof.
  intros Hst Hbody Hsid Htok Hvalid Hproj Hne.
  assert (Hgone : active_runners (reset_session body st).1 !! sid = None).
  { unfold reset_session. rewrite Hbody.
    destruct sid as [|c sid]; [exact (reachable_no_empty_key st Hst)|].
    cbn [Py.truthy_str andb]. case_bool_decide as Hin; cbn.
    - apply lookup_delete_eq.
    - destruct (active_runners st !! String c sid) eqn:E; [|reflexivity].
      exfalso. apply Hin. eauto. }
  assert (Hmiss : registry_hit (session_id (json request))
                               (active_runners (reset_session body st).1) = None).
  { apply registry_hit_None. right. right. eauto. }
  rewrite (query_miss uuid request _ tok project Htok Hvalid Hproj Hmiss).
  cbn [fst snd active_runners].
  eexists. split; [reflexivity|]. split; [reflexivity|]. split; [reflexivity|].
  rewrite lookup_insert_ne by exact Hne. exact Hgone.
Qed.

Lemma reset_then_next_request_starts_afresh :
  (reachable Examples.after_first
   /\ session_id Examples.reset_body = Some "s1"
   /\ session_id (json Examples.next_request) = Some "s1"
   /\ _extract_token Examples.next_request = Return "other"
   /\ passes_validation Examples.next_request = true
   /\ project_id (json Examples.next_request) = Some "proj2"
   /\ "s2" <> "s1")
  /\ exists s,
      (query "s2" Examples.next_request
             (reset_session Examples.reset_body Examples.after_first).1).2
      = Return (StreamingResponse s)
      /\ st_session_id s = "s2".
Proof.
  split; [split; [exact after_first_reachable|repeat split; discriminate]|].
  destruct (reset_then_message_starts_afresh "s2" Examples.reset_body
              Examples.next_request Examples.after_first "s1" "other" "proj2"
              after_first_reachable eq_refl eq_refl eq_refl eq_refl eq_refl
              ltac:(discriminate))
    as (s & Hs & Hid & _).
  exists s. auto.
Defined.

(** X9. A reset always answers ok; it changes nothing when the id is missing,
    empty or not registered; and resetting twice is resetting once. *)
Theorem reset_is_idempotent (body : Body) (st : State) :
  (reset_session body st).2 = true
  /\ (registry_hit (session_id body) (active_runners st) = None ->
      reset_session body st = (st, true))
  /\ reset_session body (reset_session body st).1 = reset_session body st.
Proof.
  unfold reset_session, registry_hit.
  destruct (session_id body) as [[|c sid]|] eqn:Hsid; cbn [Py.truthy_str andb];
    try (repeat split; reflexivity).
  case_bool_decide as Hin.
  - split; [reflexivity|]. split.
    + destruct Hin as [e He]. rewrite He. discriminate.
    + cbn [fst active_runners session_service].
      rewrite bool_decide_eq_false_2.
      * reflexivity.
      * rewrite lookup_delete_eq. intros [e He]. discriminate.
  - split; [reflexivity|]. split; [reflexivity|]. cbn [fst].
    rewrite bool_decide_eq_false_2 by exact Hin. reflexivity.
Qed.

(** X10. Every entry of a reachable registry is stored under the id of its own
    session, which is not empty and which the session service holds; its
    session and runner belong to the application ["bigquery_agent"] and
    the user ["web_user"], and its agent was made by the factory for the
    entry's project, which is not empty. *)
Theorem registry_entries_well_formed (st : State) (k : string) (e : Entry) :
  reachable st ->
  active_runners st !! k = Some e ->
  entry_well_formed st k e.
Proof.
  intros Hst. revert k e.
  induction Hst as [|uuid request st Hst IH Hne Hfresh|body st Hst IH];
    intros k e He.
  - discriminate.
  - unfold query in *.
    destruct (_extract_token request) as [tok|c d] eqn:Htok; [|exact (IH k e He)].
    destruct (Py.truthy_str (Py.strip _)) eqn:Hmsg; cbn [negb] in *;
      [|exact (IH k e He)].
    destruct (project_id (json request)) as [project|] eqn:Hproj;
      cbn [Py.truthy negb] in *; [|exact (IH k e He)].
    destruct (Py.truthy_str project) eqn:Hp; cbn [negb] in *; [|exact (IH k e He)].
    destruct (registry_hit _ _) as [[sid e0]|]; [exact (IH k e He)|].
    cbn [fst create_session active_runners session_service id] in *.
    unfold entry_well_formed. cbn [session_service].
    destruct (decide (uuid = k)) as [<-|Hk].
    + rewrite lookup_insert_eq in He. injection He as <-.
      cbn. rewrite lookup_insert_eq.
      repeat (split; [reflexivity || exact Hne|]).
      exists tok, project, (dataset (json request)).
      split; [|split; reflexivity].
      intros ->. discriminate.
    + rewrite lookup_insert_ne in He by exact Hk.
      destruct (IH k e He) as (H1 & H2 & H3 & H4).
      split; [exact H1|]. split; [exact H2|].
      split; [rewrite lookup_insert_ne by exact Hk; exact H3 | exact H4].
  - destruct (reset_state body st) as [Heq|(sid & _ & _ & Heq)];
      rewrite Heq in *; [exact (IH k e He)|].
    cbn [active_runners] in He.
    destruct (decide (sid = k)) as [<-|Hk].
    + rewrite lookup_delete_eq in He. discriminate.
    + rewrite lookup_delete_ne in He by exact Hk. exact (IH k e He).
Qed.

Lemma first_entry_well_formed :
  (reachable Examples.after_first
   /\ active_runners Examples.after_first !! "s1" = Some Examples.first_entry)
  /\ entry_well_formed Examples.after_first "s1" Examples.first_entry.
Proof.
  split; [split; [exact after_first_reachable|reflexivity]|].
  apply (registry_entries_well_formed Examples.after_first "s1"
           Examples.first_entry after_first_reachable eq_refl).
Defined.

(** X11. [query] only adds: with a generated id that is not in use, every entry
    of the registry and every session of the session service is still
    there, unchanged, after the call. Entries leave the registry by
    [reset_session] alone, and sessions never leave the session service. *)
Theorem query_only_adds (uuid : string) (request : Request) (st : State) :
  reachable st ->
  session_service st !! uuid = None ->
  active_runners st ⊆ active_runners (query uuid request st).1
  /\ session_service st ⊆ session_service (query uuid request st).1.
Proof.
  intros Hst Hfresh.
  destruct (query_state uuid request st) as [->|(entry & sess & ->)];
    [split; reflexivity|].
  cbn [active_runners session_service]. split.
  - apply insert_subseteq.
    destruct (active_runners st !! uuid) as [e|] eqn:He; [|reflexivity].
    exfalso.
    assert (Hin : uuid ∈ dom (session_service st)).
    { apply (reachable_registry_in_service st Hst), elem_of_dom. eauto. }
    apply elem_of_dom in Hin as [s Hs]. congruence.
  - apply insert_subseteq, Hfresh.
Qed.

Lemma stale_request_only_adds :
  (reachable Examples.after_first
   /\ session_service Examples.after_first !! "s9" = None)
  /\ session_service Examples.after_first
     ⊆ session_service (query "s9" MoreExamples.stale_request
                              Examples.after_first).1.
Proof.
  split; [split; [exact after_first_reachable|reflexivity]|].
  apply (query_only_adds "s9" MoreExamples.stale_request Examples.after_first
           after_first_reachable eq_refl).
Defined.

(** ** More on the stream *)

Lemma consumed_cut (pre post : list Event) (e : Event) :
  forallb iterable pre = true -> iterable e = false ->
  consumed (pre ++ e :: post) = pre ++ [e].
Proof.
  intros Hpre He. induction pre as [|x pre IH]; cbn in *.
  - rewrite He. reflexivity.
  - apply andb_prop in Hpre as [Hx Hpre]. rewrite Hx, (IH Hpre). reflexivity.
Qed.

Lemma translate_not_iterable {float} (e : Event) :
  iterable e = false -> translate (float:=float) e = [].
Proof.
  unfold iterable, translate, text_fragments, tool_calls.
  destruct (attr_truthy (content e)) as [c|]; [|discriminate].
  destruct (parts c); [|reflexivity].
  intros Hc. apply bool_decide_eq_false in Hc. destruct Hc. eauto.
Qed.

Lemma forallb_iterable_cut (pre post : list Event) (e : Event) :
  iterable e = false -> forallb iterable (pre ++ e :: post) = false.
Proof.
  intros He. rewrite forallb_app. cbn. rewrite He.
  apply andb_false_r.
Qed.

Section MoreStreamProperties.
Context {float : Type} `{Clock float}.
Context (run_async : Runner -> string -> string -> Feed).

(** X12. A turn whose feed ends without an exception, all parts lists being
    there: the stream is the session event, the translation of every raw
    event, and the done event; it holds no error event. If the feed is
    empty the stream is the session event and a done event with both
    counters 0. *)
Theorem quiet_turn_has_no_error
    (s : Stream) (start_time end_time : float) :
  raises (turn_feed run_async s) = None ->
  forallb iterable (events (turn_feed run_async s)) = true ->
  (event_stream run_async s start_time end_time).1
  = session_ev (st_session_id s)
      :: flat_map translate (events (turn_feed run_async s))
      ++ [done_ev (round (fsub end_time start_time) 2)
                  (last_reported prompt_token_count (events (turn_feed run_async s)))
                  (last_reported candidates_token_count
                                 (events (turn_feed run_async s)))]
  /\ Forall (fun e => is_error e = false)
            (event_stream run_async s start_time end_time).1
  /\ (events (turn_feed run_async s) = [] ->
      (event_stream run_async s start_time end_time).1
      = [session_ev (st_session_id s);
         done_ev (round (fsub end_time start_time) 2) 0 0]).
Proof.
  intros Hraise Hiter.
  assert (Hstream :
    (event_stream run_async s start_time end_time).1
    = session_ev (st_session_id s)
        :: flat_map translate (events (turn_feed run_async s))
        ++ [done_ev (round (fsub end_time start_time) 2)
                    (last_reported prompt_token_count
                                   (events (turn_feed run_async s)))
                    (last_reported candidates_token_count
                                   (events (turn_feed run_async s)))]).
  { unfold event_stream. rewrite event_stream_body_run. cbn [fst].
    unfold loop_error, final_counters.
    rewrite Hiter, Hraise, (consumed_all _ Hiter).
    rewrite foldl_bump_input, foldl_bump_output. reflexivity. }
  split; [exact Hstream|]. split.
  - rewrite Hstream. constructor; [reflexivity|].
    apply Forall_app; split; [|repeat constructor].
    eapply Forall_impl; [apply flat_map_translate_kinds|].
    cbn. intros e (_ & ? & _); auto.
  - intros Hnil. rewrite Hstream, Hnil. reflexivity.
Qed.

(** X13. A raw event whose content has [None] for its parts ends the turn: the
    stream is the session event, the translation of the raw events before
    it, one error event with the [TypeError]'s message, and the done
    event, whose counters take the usage of that event into account. The
    raw events after it are not translated, and an exception the feed
    would have raised later is not reported. *)
Theorem missing_parts_end_the_turn
    (s : Stream) (start_time end_time : float)
    (pre post : list Event) (e : Event) :
  events (turn_feed run_async s) = pre ++ e :: post ->
  forallb iterable pre = true ->
  iterable e = false ->
  event_stream run_async s start_time end_time
  = (session_ev (st_session_id s)
       :: flat_map translate pre
       ++ [error_ev "'NoneType' object is not iterable";
           done_ev (round (fsub end_time start_time) 2)
                   (last_reported prompt_token_count (pre ++ [e]))
                   (last_reported candidates_token_count (pre ++ [e]))],
     Normal tt).
Proof.
  intros Hevents Hpre He.
  unfold event_stream. rewrite event_stream_body_run.
  unfold loop_error, final_counters. rewrite Hevents.
  rewrite (forallb_iterable_cut pre post e He), (consumed_cut pre post e Hpre He).
  rewrite foldl_bump_input, foldl_bump_output.
  rewrite flat_map_app. cbn [flat_map].
  rewrite (translate_not_iterable e He). cbn [app]. rewrite app_nil_r.
  reflexivity.
Qed.

End MoreStreamProperties.

Lemma quiet_feed_stream :
  (raises (turn_feed (fun _ _ _ => MoreExamples.quiet_feed) Examples.a_stream)
     = None
   /\ forallb iterable
        (events (turn_feed (fun _ _ _ => MoreExamples.quiet_feed)
                           Examples.a_stream)) = true)
  /\ (event_stream (H:=centi_clock) (fun _ _ _ => MoreExamples.quiet_feed)
                   Examples.a_stream 100 250).1
     = [session_ev "s1"; text_ev "a"; tool_ev (Some "t"); done_ev 150 1 2].
Proof.
  split; [split; reflexivity|].
  apply (quiet_turn_has_no_error (H:=centi_clock)
           (fun _ _ _ => MoreExamples.quiet_feed) Examples.a_stream 100 250
           eq_refl eq_refl).
Defined.

Lemma cut_feed_stream :
  (events (turn_feed (fun _ _ _ => MoreExamples.cut_feed) Examples.a_stream)
     = [Examples.raw (Attr None) [Examples.text_part "a"]]
       ++ MoreExamples.no_parts
       :: [Examples.raw (Attr None) [Examples.text_part "b"]]
   /\ iterable MoreExamples.no_parts = false)
  /\ event_stream (H:=centi_clock) (fun _ _ _ => MoreExamples.cut_feed)
                  Examples.a_stream 100 250
     = ([session_ev "s1"; text_ev "a";
         error_ev "'NoneType' object is not iterable"; done_ev 150 3 4],
        Normal tt).
Proof.
  split; [split; reflexivity|].
  apply (missing_parts_end_the_turn (H:=centi_clock)
           (fun _ _ _ => MoreExamples.cut_feed) Examples.a_stream 100 250
           [Examples.raw (Attr None) [Examples.text_part "a"]]
           [Examples.raw (Attr None) [Examples.text_part "b"]]
           MoreExamples.no_parts eq_refl eq_refl eq_refl).
Defined.

(** ** More on the listings *)

Section Stability.
Context {A : Type} (key : A -> string).

Lemma leb_refl (a : string) : String.leb a a = true.
Proof.
  destruct (String.leb_total a a) as [Ha|Ha]; exact Ha.
Qed.

Lemma insert_by_stable (k : string) (x : A) (l : list A) :
  filter (fun y => key y = k) (Py.insert_by key x l)
  = filter (fun y => key y = k) (x :: l).
Proof.
  induction l as [|y l IH]; [reflexivity|].
  cbn [Py.insert_by]. destruct (String.leb (key x) (key y)) eqn:Hxy;
    [reflexivity|].
  assert (Hne : key x <> key y).
  { intros Heq. rewrite Heq, leb_refl in Hxy. discriminate. }
  destruct (decide (key y = k)) as [Hy|Hy].
  - rewrite (filter_cons_True _ y _ Hy), IH.
    rewrite (filter_cons_False _ x (y :: l)) by congruence.
    rewrite (filter_cons_False _ x l) by congruence.
    rewrite (filter_cons_True _ y _ Hy). reflexivity.
  - rewrite (filter_cons_False _ y _ Hy), IH.
    destruct (decide (key x = k)) as [Hx|Hx].
    + rewrite !(filter_cons_True _ x _ Hx).
      rewrite (filter_cons_False _ y _ Hy). reflexivity.
    + rewrite !(filter_cons_False _ x _ Hx).
      rewrite (filter_cons_False _ y _ Hy). reflexivity.
Qed.

Lemma sort_by_stable (k : string) (l : list A) :
  filter (fun y => key y = k) (Py.sort_by key l)
  = filter (fun y => key y = k) l.
Proof.
  induction l as [|x l IH]; [reflexivity|].
  cbn [Py.sort_by foldr]. rewrite insert_by_stable.
  destruct (decide (key x = k)) as [Hx|Hx].
  - rewrite !(filter_cons_True _ x _ Hx). f_equal. exact IH.
  - rewrite !(filter_cons_False _ x _ Hx). exact IH.
Qed.
End Stability.

(** X14. Projects whose display names are equal without regard to case are
    listed in the order the upstream gave them. *)
Theorem equal_names_keep_upstream_order
    (client_get : string -> UpstreamResponse (option (list ProjectJson)))
    (request : Request) (token : string) (ps : list Project) (k : string) :
  _extract_token request = Return token ->
  list_projects client_get request = Return ps ->
  filter (fun p => Py.lower (p_name p) = k) ps
  = filter (fun p => Py.lower (p_name p) = k)
           (map project_of (default [] (resp_json (client_get token)))).
Proof.
  intros Htok. unfold list_projects. rewrite Htok. cbn.
  destruct (status_code (client_get token) =? 403); [discriminate|].
  destruct (negb (status_code (client_get token) =? 200)); [discriminate|].
  intros [= <-]. apply (sort_by_stable (fun p => Py.lower (p_name p))).
Qed.

Lemma same_name_projects_keep_order :
  (_extract_token Examples.first_request = Return "tok"
   /\ list_projects
        (Examples.projects_reply 200 "" MoreExamples.same_name_projects)
        Examples.first_request
      = Return (map project_of
                  [ {| projectId := "p2"; name := Some "alpha"; projectNumber := None |};
                    {| projectId := "p1"; name := Some "Sales"; projectNumber := None |};
                    {| projectId := "p3"; name := Some "sales"; projectNumber := None |} ]))
  /\ filter (fun p => Py.lower (p_name p) = "sales")
            (map project_of
               [ {| projectId := "p2"; name := Some "alpha"; projectNumber := None |};
                 {| projectId := "p1"; name := Some "Sales"; projectNumber := None |};
                 {| projectId := "p3"; name := Some "sales"; projectNumber := None |} ])
     = filter (fun p => Py.lower (p_name p) = "sales")
              (map project_of MoreExamples.same_name_projects).
Proof.
  split; [split; reflexivity|].
  apply (equal_names_keep_upstream_order
           (Examples.projects_reply 200 "" MoreExamples.same_name_projects)
           Examples.first_request "tok" _ "sales" eq_refl eq_refl).
Defined.

(** ** The agent factory *)

Lemma append_assoc (a b c : string) : (a +:+ b) +:+ c = a +:+ (b +:+ c).
Proof.
  induction a as [|x a IH]; [reflexivity|].
  rewrite !append_String, IH. reflexivity.
Qed.

Ltac find_occurrence pre post :=
  exists pre, post; cbn [instruction create_bigquery_agent dataset_clause];
  repeat rewrite append_assoc; reflexivity.

(** X15. The agent made by the factory has one toolset, which carries the token
    as its credentials and the project as its compute project; its
    instruction has the lines naming the project and, when a dataset is
    given, the dataset and the qualified table name; the token does not
    enter the instruction; an empty dataset is no dataset. *)
Theorem agent_is_bound_to_project_and_dataset
    (access_token project_id model : string) (default_dataset : option string) :
  tools (create_bigquery_agent access_token project_id default_dataset model)
  = [{| credentials := {| token := access_token |};
        compute_project_id := project_id |}]
  /\ occurs_in ("- Project ID: " +:+ project_id)
       (instruction (create_bigquery_agent access_token project_id
                                           default_dataset model))
  /\ occurs_in ("Always use the project " +:+ dquote +:+ project_id +:+ dquote
                +:+ " for all queries")
       (instruction (create_bigquery_agent access_token project_id
                                           default_dataset model))
  /\ (forall other_token,
        instruction (create_bigquery_agent other_token project_id
                                           default_dataset model)
        = instruction (create_bigquery_agent access_token project_id
                                             default_dataset model))
  /\ (forall d, default_dataset = Some d -> d <> "" ->
        occurs_in ("- Default Dataset: " +:+ d)
          (instruction (create_bigquery_agent access_token project_id
                                              default_dataset model))
        /\ occurs_in ("`" +:+ project_id +:+ "." +:+ d +:+ ".table_name`")
             (instruction (create_bigquery_agent access_token project_id
                                                 default_dataset model)))
  /\ create_bigquery_agent access_token project_id (Some "") model
     = create_bigquery_agent access_token project_id None model.
Proof.
  split; [reflexivity|]. split; [|split; [|split; [reflexivity|split; [|reflexivity]]]].
  - cbn [instruction create_bigquery_agent].
    match goal with
    | |- occurs_in _ (?l +:+ _ +:+ ?r) =>
        find_occurrence (String.substring 0 (String.length l - 14) l) r
    end.
  - cbn [instruction create_bigquery_agent].
    match goal with
    | |- occurs_in _ (?l1 +:+ ?p +:+ ?l2 +:+ ?c +:+ ?l3 +:+ _ +:+ _ +:+ _ +:+ ?l4) =>
        find_occurrence
          (l1 +:+ p +:+ l2 +:+ c
           +:+ String.substring 0 (String.length l3 - 23) l3)
          (String.substring 16 (String.length l4 - 16) l4)
    end.
  - intros d -> Hd. destruct d as [|c d]; [congruence|].
    cbn [instruction create_bigquery_agent dataset_clause Py.truthy_str].
    split.
    + match goal with
      | |- occurs_in _ (?l1 +:+ ?p +:+ ?l2 +:+ (_ +:+ ?x +:+ ?r) +:+ ?rest) =>
          find_occurrence (l1 +:+ p +:+ l2 +:+ String (ascii_of_nat 10) "")
                          (r +:+ rest)
      end.
    + match goal with
      | |- occurs_in _ (?l1 +:+ ?p +:+ ?l2
                        +:+ (?c1 +:+ ?x +:+ ?c2 +:+ _ +:+ _ +:+ _ +:+ ?c3)
                        +:+ ?rest) =>
          find_occurrence
            (l1 +:+ p +:+ l2 +:+ c1 +:+ x
             +:+ String.substring 0 (String.length c2 - 1) c2)
            (String.substring 12 (String.length c3 - 12) c3 +:+ rest)
      end.
Qed.
